(** * Robottelo: the Environment page object, Session scoping and the
    product operations the functional tests assert on.

    The page object of [robottelo/ui/environment.py] is a short sequence of
    calls into the [Base] page-object layer and the [Navigator]; every such
    call reaches the browser driver.  The embedding keeps the methods as
    programs over the signature of those calls and runs them against an
    arbitrary browser, recording the calls made and what each one answered. *)

From stdpp Require Import base gmap strings list.
From Stdlib Require Import Ascii Lia.

Local Open Scope string_scope.
Local Open Scope list_scope.

(** ** Python values and exceptions seen by the page object *)

(** A selenium [WebElement] handle. *)
Definition element := nat.

(** What a [Base] operation hands back: [None] or a located element. *)
Inductive value :=
| VNone
| VElem (e : element).

(** Exceptions that can travel through the page object.  [AttributeError]
    is the one Python itself raises for a method call on [None]; the others
    are raised by the layers below. *)
Inductive exn :=
| AttributeError
| AssertionError
| UINoSuchElementError
| TimeoutException
| IndexError
| HTTPError
| CLIReturnCodeError.

#[global] Instance exn_eq_dec : EqDecision exn.
Proof. solve_decision. Defined.

Inductive outcome (A : Type) :=
| Returned (a : A)
| Raised (e : exn).
Arguments Returned {A} a.
Arguments Raised {A} e.

(** Python truth value of an object: [None] is false, a [WebElement]
    (no [__bool__], no [__len__]) is true. *)
Definition truthy (v : value) : bool :=
  match v with
  | VNone => false
  | VElem _ => true
  end.

(** Truth value of a list-or-[None] argument: false for [None] and []. *)
Definition truthy_list {A} (l : option (list A)) : bool :=
  match l with
  | Some (_ :: _) => true
  | _ => false
  end.

(** Truth value of a string-or-[None] argument: false for [None] and ''. *)
Definition truthy_str (s : option string) : bool :=
  match s with
  | None => false
  | Some s => negb (String.length s =? 0)%nat
  end.

(** ** Python strings

    A string is kept as the bytes of its UTF-8 encoding, which is also how
    a string literal of this file is read.  Python's [len] counts
    characters, not bytes: in UTF-8 every character has exactly one byte
    that is not a continuation byte (0x80 to 0xBF), and [len] counts
    those. *)
Definition is_continuation (b : ascii) : bool :=
  let n := N_of_ascii b in
  (128 <=? n)%N && (n <? 192)%N.

(** [len(s)] *)
Fixpoint len (s : string) : nat :=
  match s with
  | EmptyString => 0
  | String b s => (if is_continuation b then 0 else 1) + len s
  end.

(** The UTF-8 bytes of the character with code point [c]. *)
Definition utf8_char (c : N) : string :=
  if (c <? 128)%N then
    String (ascii_of_N c) EmptyString
  else if (c <? 2048)%N then
    String (ascii_of_N (192 + c / 64))
      (String (ascii_of_N (128 + c mod 64)) EmptyString)
  else if (c <? 65536)%N then
    String (ascii_of_N (224 + c / 4096))
      (String (ascii_of_N (128 + (c / 64) mod 64))
         (String (ascii_of_N (128 + c mod 64)) EmptyString))
  else
    String (ascii_of_N (240 + (c / 262144) mod 8))
      (String (ascii_of_N (128 + (c / 4096) mod 64))
         (String (ascii_of_N (128 + (c / 64) mod 64))
            (String (ascii_of_N (128 + c mod 64)) EmptyString))).

(** The UTF-8 bytes of a string given character by character. *)
Fixpoint utf8 (cs : list N) : string :=
  match cs with
  | [] => EmptyString
  | c :: cs => utf8_char c +:+ utf8 cs
  end.

(** ** Locator registry *)

Inductive registry :=
| RegLocators
| RegCommonLocators
| RegTabLocators.

(** A locator is addressed by the dictionary it lives in and its key; the
    selector strings themselves are in [robottelo/ui/locators.py], which has
    every key the page object asks for. *)
Record locator := Locator { loc_registry : registry; loc_key : string }.

Definition locators (k : string) : locator := Locator RegLocators k.
Definition common_locators (k : string) : locator := Locator RegCommonLocators k.
Definition tab_locators (k : string) : locator := Locator RegTabLocators k.

(** [robottelo.constants.FILTER], addressed by key. *)
Inductive filter_key :=
| FILTER (k : string).

(** A keyword argument that is either left to the callee's default or given. *)
Inductive kwarg (A : Type) :=
| Default
| Given (a : A).
Arguments Default {A}.
Arguments Given {A} a.

(** ** Calls into the layers below the page object *)

Inductive call :=
| Click (l : locator)
| WaitUntilElement (l : locator)
| FindElement (l : locator)
| SendKeys (e : element) (text : string)
| ElementClick (e : element)
| FieldUpdate (loc_string : string) (newtext : option string)
| ConfigureEntity (entity_list : option (list string)) (filter : filter_key)
    (tab_locator : locator) (new_entity_list : kwarg (option (list string)))
    (entity_select : bool)
| SearchEntity (name : string) (l : locator)
| DeleteEntity (name : string) (really : bool) (name_locator del_locator : locator)
    (drop_locator : kwarg locator)
| GoToEnvironments
| Login
| Logout
| Helper (fn : string) (args : list string).

#[global] Instance value_eq_dec : EqDecision value.
Proof. solve_decision. Defined.
#[global] Instance registry_eq_dec : EqDecision registry.
Proof. solve_decision. Defined.
#[global] Instance locator_eq_dec : EqDecision locator.
Proof. solve_decision. Defined.
#[global] Instance filter_key_eq_dec : EqDecision filter_key.
Proof. solve_decision. Defined.
#[global] Instance kwarg_eq_dec `{EqDecision A} : EqDecision (kwarg A).
Proof. solve_decision. Defined.
#[global] Instance call_eq_dec : EqDecision call.
Proof. solve_decision. Defined.

(** How many times a call was made. *)
Definition occurrences (c : call) (cs : list call) : nat :=
  length (filter (fun x => x = c) cs).

(** One step of a run: the call and what the browser answered. *)
Definition event : Type := call * outcome value.

(** ** Programs *)

(** A method body: it returns, raises, or makes a call and goes on with the
    answer.  The answer of a call includes the exception it may raise, so
    that [with] blocks can be written as programs too. *)
Inductive prog (A : Type) : Type :=
| Ret (a : A)
| Throw (e : exn)
| Call (c : call) (k : outcome value -> prog A).
Arguments Ret {A} a.
Arguments Throw {A} e.
Arguments Call {A} c k.

(** [handle p h]: run [p], then [h] on its outcome, normal or exceptional. *)
Fixpoint handle {A B} (p : prog A) (h : outcome A -> prog B) : prog B :=
  match p with
  | Ret a => h (Returned a)
  | Throw e => h (Raised e)
  | Call c k => Call c (fun r => handle (k r) h)
  end.

(** Sequencing: an exception of the first part propagates. *)
Definition bind {A B} (p : prog A) (f : A -> prog B) : prog B :=
  handle p (fun r => match r with
                     | Returned a => f a
                     | Raised e => Throw e
                     end).

#[global] Instance prog_ret : MRet prog := @Ret.
#[global] Instance prog_bind : MBind prog := fun A B f p => bind p f.

(** A plain call: its exception, if any, propagates. *)
Definition perform (c : call) : prog value :=
  Call c (fun r => match r with
                   | Returned v => Ret v
                   | Raised e => Throw e
                   end).

(** A method call on an object that may be [None]. *)
Definition on_element (v : value) (m : element -> call) : prog value :=
  match v with
  | VElem e => perform (m e)
  | VNone => Throw AttributeError
  end.

(** ** Running a program against a browser *)

Section Run.
Context {W : Type}.
(** The browser and the product behind it: any answer to any call. *)
Variable browser : call -> W -> outcome value * W.

Fixpoint run {A} (p : prog A) (w : W) : list event * outcome A * W :=
  match p with
  | Ret a => ([], Returned a, w)
  | Throw e => ([], Raised e, w)
  | Call c k =>
      let '(r, w1) := browser c w in
      let '(t, o, w2) := run (k r) w1 in
      ((c, r) :: t, o, w2)
  end.

Definition trace {A} (p : prog A) (w : W) : list event := (run p w).1.1.
Definition result {A} (p : prog A) (w : W) : outcome A := (run p w).1.2.
Definition final {A} (p : prog A) (w : W) : W := (run p w).2.
Definition calls {A} (p : prog A) (w : W) : list call := (trace p w).*1.

End Run.

(** ** [robottelo/ui/environment.py] *)

Module Environment.

(** [Environment.search]; [len(name)] is the number of characters of the
    name. *)
Definition search (name : string) : prog value :=
  perform GoToEnvironments;;
  if (len name <=? 30)%nat then
    element ← perform (SearchEntity name (locators "env.env_name"));
    Ret element
  else
    element ← perform (SearchEntity name (common_locators "select_filtered_entity"));
    Ret element.

(** The locator [search] hands to [search_entity]. *)
Definition search_locator (name : string) : locator :=
  if (len name <=? 30)%nat then locators "env.env_name"
  else common_locators "select_filtered_entity".

(** [Environment.create]; [org_select] defaults to [True]. *)
Definition create (name : string) (orgs : option (list string))
    (org_select : bool) : prog value :=
  perform (Click (locators "env.new"));;
  found ← perform (WaitUntilElement (locators "env.name"));
  (if truthy found then
     field ← perform (FindElement (locators "env.name"));
     on_element field (fun e => SendKeys e name)
   else Ret VNone);;
  (if truthy_list orgs then
     perform (ConfigureEntity orgs (FILTER "env_org") (tab_locators "tab_org")
                Default org_select)
   else Ret VNone);;
  perform (Click (common_locators "submit"));;
  Ret VNone.

(** [Environment.update]; [orgs], [new_orgs] and [new_name] default to
    [None], [org_select] to [False]. *)
Definition update (old_name : string) (orgs new_orgs : option (list string))
    (new_name : option string) (org_select : bool) : prog value :=
  element ← search old_name;
  if truthy element then
    on_element element ElementClick;;
    found ← perform (WaitUntilElement (locators "env.name"));
    (if truthy found && truthy_str new_name then
       perform (FieldUpdate "env.name" new_name)
     else Ret VNone);;
    perform (ConfigureEntity orgs (FILTER "env_org") (tab_locators "tab_org")
               (Given new_orgs) org_select);;
    perform (Click (common_locators "submit"));;
    Ret VNone
  else Ret VNone.

(** [Environment.delete]; [really] defaults to [True]. *)
Definition delete (name : string) (really : bool) : prog value :=
  perform (DeleteEntity name really (locators "env.env_name")
             (locators "env.delete") (Given (locators "env.dropdown")));;
  Ret VNone.

End Environment.

(** ** A concrete browser

    A page on which [present] tells which locators resolve to an element and
    [listed] which entity names the listing shows; nothing raises.  The
    state counts the calls served. *)
Definition page (present : locator -> option element)
    (listed : string -> option element) (c : call) (n : nat)
  : outcome value * nat :=
  let answer :=
    match c with
    | WaitUntilElement l | FindElement l =>
        match present l with Some e => VElem e | None => VNone end
    | SearchEntity name _ =>
        match listed name with Some e => VElem e | None => VNone end
    | _ => VNone
    end in
  (Returned answer, S n).

(** The edit form is up: the name field is element 5. *)
Definition form_up (l : locator) : option element :=
  if decide (loc_key l = "env.name") then Some 5 else None.
(** The name field never shows. *)
Definition form_missing (l : locator) : option element := None.
(** A listing with the single environment "dev", element 1. *)
Definition only_dev (name : string) : option element :=
  if decide (name = "dev") then Some 1 else None.

(** A browser below which no call raises. *)
Definition never_raises {W} (browser : call -> W -> outcome value * W) : Prop :=
  forall c w, exists v w1, browser c w = (Returned v, w1).

(** ** Blocks of a test method *)

(** Python's [with EXPR as x: BODY]: [__enter__] runs first and an
    exception of it reaches neither the body nor [__exit__]; once entered,
    [__exit__] runs after the body however the body ends, and an exception
    of the body goes on propagating unless [__exit__] returns a true value. *)
Definition with_ {X} (enter : prog X) (exit : X -> option exn -> prog value)
    (body : X -> prog value) : prog value :=
  x ← enter;
  handle (body x) (fun r =>
    match r with
    | Returned _ => exit x None;; Ret VNone
    | Raised e =>
        swallow ← exit x (Some e);
        if truthy swallow then Ret VNone else Throw e
    end).

(** [for x in xs: BODY] *)
Fixpoint for_each {X} (xs : list X) (body : X -> prog value) : prog value :=
  match xs with
  | [] => Ret VNone
  | x :: xs => body x;; for_each xs body
  end.

(** [with self.subTest(...)]: unittest records a failure of the block and
    lets the loop around it go on. *)
Definition subTest (body : prog value) : prog value :=
  handle body (fun _ => Ret VNone).

(** [self.assertIsNotNone(v)] *)
Definition assertIsNotNone (v : value) : prog value :=
  if truthy v then Ret VNone else Throw AssertionError.

Module Session.

(** The object [with Session(browser) as session] binds. *)
Inductive session :=
| Self.

(** Modelled from the spec: [robottelo/ui/session.py] is not among the
    sources.  Section 4.4 makes [Session] "a scoped login/logout wrapper
    that establishes a browser context for a block of test operations":
    entering it logs in and hands the session to the block. *)
Definition enter : prog session :=
  perform Login;; Ret Self.

(** Modelled from the spec: leaving the block logs out "on every exit path
    (normal return or exception)", so [__exit__] logs out whatever it is
    told about the block, and it returns [None]: a failure of the block
    still fails the test. *)
Definition exit (self : session) (raised : option exn) : prog value :=
  perform Logout;; Ret VNone.

(** [with Session(self.browser) as session: BODY] *)
Definition scoped (body : session -> prog value) : prog value :=
  with_ enter exit body.

End Session.

(** [tests/foreman/ui/test_medium.py], [Medium.test_remove_medium]; [name]
    is the generated string and [path] the URL built from it.  [make_media]
    and the [Medium] page object are calls into code outside the sources. *)
Definition test_remove_medium (name path : string) : prog value :=
  Session.scoped (fun session =>
    perform (Helper "make_media" [name; path; "Red Hat"]);;
    perform (Helper "medium.delete" [name]);;
    Ret VNone).

(** [tests/foreman/ui/test_config_groups.py],
    [ConfigGroups.test_create_positive]; [names] is [valid_data_list()]. *)
Definition test_create_positive (names : list string) : prog value :=
  Session.scoped (fun session =>
    for_each names (fun name =>
      subTest (
        perform (Helper "make_config_groups" [name]);;
        search ← perform (Helper "configgroups.search" [name]);
        assertIsNotNone search))).

(** A browser on which logging in works and every helper of the tests
    answers [None], so that [assertIsNotNone] fails. *)
Definition blank (c : call) (n : nat) : outcome value * nat :=
  (Returned VNone, S n).

(** A browser on which the helper named [broken] raises. *)
Definition breaking (broken : string) (c : call) (n : nat)
  : outcome value * nat :=
  match c with
  | Helper fn _ =>
      if decide (fn = broken) then (Raised UINoSuchElementError, S n)
      else (Returned VNone, S n)
  | _ => (Returned VNone, S n)
  end.

(** ** The product behind the API and the CLI *)

Module Server.

(** The entity types the tests create, read and delete. *)
Inductive kind :=
| Organization
| Product
| Repository
| Registry
| LifecycleEnvironment
| ContentView.

(** Modelled from the spec: the remote product is not part of the
    repository.  Section 3 has entities "each identified by a
    server-assigned identifier" that "are created and destroyed via calls to
    the external product"; the glossary has content views that are
    "versionable", versions that live in lifecycle environments, and the
    Library as one such environment.  [entities] are the live entities by
    identifier, [repository] the repositories of a content view, [version]
    the versions published from it, and [environment] the lifecycle
    environments each version is available in. *)
Record server := Build {
  next_id : nat;
  entities : gmap nat kind;
  repository : gmap nat (list nat);
  version : gmap nat (list nat);
  environment : gmap nat (gset nat)
}.

(** The Library environment, present from the start. *)
Definition library : nat := 0.

Definition initial : server :=
  Build 1 {[library := LifecycleEnvironment]} ∅ ∅ ∅.

(** An API request: it answers or raises, and leaves the product in a new
    state either way. *)
Definition request (A : Type) : Type := server -> outcome A * server.

(** Modelled from the spec: creating an entity gives it the next
    server-assigned identifier. *)
Definition create (k : kind) : request nat := fun s =>
  (Returned (next_id s),
   Build (S (next_id s)) (<[next_id s := k]> (entities s))
     (repository s) (version s) (environment s)).

(** Modelled from the spec: reading an entity that does not exist is an
    HTTP error (section 7, error taxonomy (a)). *)
Definition read (id : nat) : request kind := fun s =>
  match entities s !! id with
  | Some k => (Returned k, s)
  | None => (Raised HTTPError, s)
  end.

(** Modelled from the spec: deleting destroys the entity; there is nothing
    to delete under an unknown identifier. *)
Definition delete (id : nat) : request unit := fun s =>
  match entities s !! id with
  | Some _ =>
      (Returned (),
       Build (next_id s) (base.delete id (entities s))
         (repository s) (version s) (environment s))
  | None => (Raised HTTPError, s)
  end.

(** Modelled from the spec: [content_view.repository = repos] followed by
    [content_view.update(['repository'])] sets the repositories of a content
    view; there is no content view to update under another identifier. *)
Definition update_repository (cv : nat) (repos : list nat) : request unit :=
  fun s =>
  match entities s !! cv with
  | Some ContentView =>
      (Returned (),
       Build (next_id s) (entities s) (<[cv := repos]> (repository s))
         (version s) (environment s))
  | _ => (Raised HTTPError, s)
  end.

(** Modelled from the spec: [content_view.repository] as the product has
    it. *)
Definition read_repository (cv : nat) : request (list nat) := fun s =>
  match entities s !! cv with
  | Some ContentView => (Returned (default [] (repository s !! cv)), s)
  | _ => (Raised HTTPError, s)
  end.

(** Modelled from the spec: publishing a content view adds one version to
    it; the tests find a fresh version in one environment, the Library. *)
Definition publish (cv : nat) : request unit := fun s =>
  match entities s !! cv with
  | Some ContentView =>
      (Returned (),
       Build (S (next_id s)) (entities s) (repository s)
         (<[cv := default [] (version s !! cv) ++ [next_id s]]> (version s))
         (<[next_id s := {[library]}]> (environment s)))
  | _ => (Raised HTTPError, s)
  end.

(** Modelled from the spec: [content_view.read().version], the versions
    published so far, oldest first. *)
Definition read_version (cv : nat) : request (list nat) := fun s =>
  match entities s !! cv with
  | Some ContentView => (Returned (default [] (version s !! cv)), s)
  | _ => (Raised HTTPError, s)
  end.

(** Modelled from the spec: [cvv.read().environment], the lifecycle
    environments the version is available in. *)
Definition read_environment (cvv : nat) : request (gset nat) := fun s =>
  match environment s !! cvv with
  | Some envs => (Returned envs, s)
  | None => (Raised HTTPError, s)
  end.

(** Modelled from the spec: [robottelo.api.utils.promote] is not among the
    sources.  The glossary: promote "makes a content view version available
    in an additional lifecycle environment"; promoting an unknown version
    or to something that is not a lifecycle environment is an HTTP error. *)
Definition promote (cvv lce : nat) : request unit := fun s =>
  match environment s !! cvv, entities s !! lce with
  | Some envs, Some LifecycleEnvironment =>
      (Returned (),
       Build (next_id s) (entities s) (repository s) (version s)
         (<[cvv := envs ∪ {[lce]}]> (environment s)))
  | _, _ => (Raised HTTPError, s)
  end.

(** Modelled from the spec: the CLI wrappers of [robottelo.cli] are not
    among the sources.  Section 7 (b): a failed command ends with a non-zero
    exit code, "surfaced as a typed error". *)
Definition cli {A} (r : request A) : request A := fun s =>
  match r s with
  | (Returned a, s1) => (Returned a, s1)
  | (Raised _, s1) => (Raised CLIReturnCodeError, s1)
  end.

(** ** Test methods over the product *)

(** What a running test method sees: the product, and the failures the
    test result has recorded so far. *)
Record world := World { product : server; failures : list exn }.

Definition test (A : Type) : Type := world -> outcome A * world.

#[global] Instance test_ret : MRet test := fun A a w => (Returned a, w).
#[global] Instance test_bind : MBind test := fun A B f m w =>
  match m w with
  | (Returned a, w1) => f a w1
  | (Raised e, w1) => (Raised e, w1)
  end.

(** A request sent from a test method. *)
Definition send {A} (r : request A) : test A := fun w =>
  let '(o, s) := r (product w) in (o, World s (failures w)).

Definition raise {A} (e : exn) : test A := fun w => (Raised e, w).

(** [with self.assertRaises(expected): BODY] *)
Definition assertRaises {A} (expected : exn) (body : test A) : test unit :=
  fun w =>
  match body w with
  | (Returned _, w1) => (Raised AssertionError, w1)
  | (Raised e, w1) =>
      if decide (e = expected) then (Returned (), w1) else (Raised e, w1)
  end.

(** [self.assertEqual(a, b)] *)
Definition assertEqual `{EqDecision A} (a b : A) : test unit :=
  if decide (a = b) then mret () else raise AssertionError.

(** [with self.subTest(...)]: a failure of the block is recorded and the
    loop around it goes on. *)
Definition subTest (body : test unit) : test unit := fun w =>
  match body w with
  | (Returned _, w1) => (Returned (), w1)
  | (Raised e, w1) => (Returned (), World (product w1) (failures w1 ++ [e]))
  end.

Fixpoint for_each {X} (xs : list X) (body : X -> test unit) : test unit :=
  match xs with
  | [] => mret ()
  | x :: xs => body x;; for_each xs body
  end.

(** [xs[0]] *)
Definition first {A} (xs : list A) : test A :=
  match xs with
  | x :: _ => mret x
  | [] => raise IndexError
  end.

(** A test method passes when it returns and no failure was recorded. *)
Definition passes {A} (t : test A) (s : server) : Prop :=
  exists a s1, t (World s []) = (Returned a, World s1 []).

(** [tests/foreman/cli/test_lifecycleenvironment.py],
    [TestLifeCycleEnvironment.test_positive_delete_1]; [names] is
    [valid_data_list()].  The product keeps names and organizations too;
    the identifier is what the test reads the entity back by. *)
Definition test_positive_delete_1 (names : list string) : test unit :=
  for_each names (fun name =>
    subTest (
      new_lce ← send (cli (create LifecycleEnvironment));
      send (cli (delete new_lce));;
      assertRaises CLIReturnCodeError (send (cli (read new_lce))))).

(** [tests/foreman/api/test_docker.py],
    [DockerRepositoryTestCase.test_delete_docker_repo] *)
Definition test_delete_docker_repo : test unit :=
  product ← send (create Product);
  repo ← send (create Repository);
  send (delete repo);;
  assertRaises HTTPError (send (read repo)).

(** [tests/foreman/api/test_docker.py],
    [DockerRegistriesTestCase.test_delete_registry] *)
Definition test_delete_registry (names : list string) : test unit :=
  for_each names (fun name =>
    subTest (
      registry ← send (create Registry);
      send (delete registry);;
      assertRaises HTTPError (send (read registry)))).

(** The common start of the promotion tests of [test_docker.py]: a content
    view with one Docker repository, published; the version is handed on. *)
Definition published_docker_content_view : test nat :=
  product ← send (create Product);
  repo ← send (create Repository);
  content_view ← send (create ContentView);
  send (update_repository content_view [repo]);;
  repos ← send (read_repository content_view);
  assertEqual [repo] repos;;
  send (publish content_view);;
  versions ← send (read_version content_view);
  cvv ← first versions;
  envs ← send (read_environment cvv);
  assertEqual (size envs) 1;;
  mret cvv.

(** [DockerContentViewTestCase.test_promote_docker_repo_content_view] *)
Definition test_promote_docker_repo_content_view : test unit :=
  lce ← send (create LifecycleEnvironment);
  cvv ← published_docker_content_view;
  send (promote cvv lce);;
  envs ← send (read_environment cvv);
  assertEqual (size envs) 2.

(** [DockerContentViewTestCase.test_promote_multiple_docker_repo_content_view];
    [r] is the draw of [randint(3, 6)]. *)
Definition test_promote_multiple_docker_repo_content_view (r : nat)
  : test unit :=
  cvv ← published_docker_content_view;
  for_each (seq 1 (r - 1)) (fun i =>
    lce ← send (create LifecycleEnvironment);
    send (promote cvv lce);;
    envs ← send (read_environment cvv);
    assertEqual (size envs) (i + 1)).

(** The requests a test may send between two others. *)
Inductive op :=
| OpCreate (k : kind)
| OpDelete (id : nat)
| OpUpdateRepository (cv : nat) (repos : list nat)
| OpPublish (cv : nat)
| OpPromote (cvv lce : nat).

Definition step (s : server) (o : op) : server :=
  match o with
  | OpCreate k => (create k s).2
  | OpDelete id => (delete id s).2
  | OpUpdateRepository cv repos => (update_repository cv repos s).2
  | OpPublish cv => (publish cv s).2
  | OpPromote cvv lce => (promote cvv lce s).2
  end.

(** The product after a sequence of requests, failed ones included. *)
Definition after (ops : list op) (s : server) : server :=
  foldl step s ops.

(** Promoting a version to each environment of a list in turn. *)
Fixpoint promote_all (cvv : nat) (lces : list nat) : request unit := fun s =>
  match lces with
  | [] => (Returned (), s)
  | lce :: lces =>
      match promote cvv lce s with
      | (Returned _, s1) => promote_all cvv lces s1
      | (Raised e, s1) => (Raised e, s1)
      end
  end.

(** [id] was given out and names no live entity. *)
Definition gone (id : nat) (s : server) : Prop :=
  entities s !! id = None /\ id < next_id s.

(** Identifiers not given out yet name nothing, and the Library has one. *)
Definition wf (s : server) : Prop :=
  library < next_id s /\
  forall id, next_id s <= id ->
    entities s !! id = None /\ version s !! id = None.

(** A product with one content view (1) and one more lifecycle
    environment (2) besides the Library. *)
Definition staged : server :=
  (create LifecycleEnvironment (create ContentView initial).2).2.

End Server.

(** ** The other methods of the UI test classes *)

(** [self.assertIsNone(v)] *)
Definition assertIsNone (v : value) : prog value :=
  match v with
  | VNone => Ret VNone
  | VElem _ => Throw AssertionError
  end.

(** The argument lists of the calls made to the helper [fn], in order. *)
Definition helper_calls (fn : string) (cs : list call) : list (list string) :=
  omap (fun c =>
          match c with
          | Helper f args => if decide (f = fn) then Some args else None
          | _ => None
          end) cs.

(** A browser on which the calls picked by [bad] raise and every other
    call answers as [page present listed] does. *)
Definition failing (bad : call -> bool) (present : locator -> option element)
    (listed : string -> option element) (c : call) (n : nat)
  : outcome value * nat :=
  if bad c then (Raised UINoSuchElementError, S n)
  else page present listed c n.

(** The click on submit. *)
Definition is_submit (c : call) : bool :=
  bool_decide (c = Click (common_locators "submit")).

(** A browser whose helpers find every medium and show no error element. *)
Definition media_found (c : call) (n : nat) : outcome value * nat :=
  match c with
  | Helper _ _ => (Returned (VElem 9), S n)
  | _ => (Returned VNone, S n)
  end.

(** A listing that shows the medium "abcdef" and no other: an update that
    renames it is not seen. *)
Definition rename_lost (c : call) (n : nat) : outcome value * nat :=
  match c with
  | Helper "medium.search" ["abcdef"] => (Returned (VElem 9), S n)
  | _ => (Returned VNone, S n)
  end.

(** The listing and the error elements as
    [test_negative_create_medium_with_same_path] wants them: the medium
    "first" is listed, the one named "second" is not, and the error element
    shows. *)
Definition same_path_rejected (c : call) (n : nat) : outcome value * nat :=
  match c with
  | Helper "medium.search" ["first"] => (Returned (VElem 9), S n)
  | WaitUntilElement _ => (Returned (VElem 4), S n)
  | _ => (Returned VNone, S n)
  end.

(** [tests/foreman/ui/test_config_groups.py]; [make_config_groups] and the
    [ConfigGroups] page object are calls into code outside the sources. *)
Module ConfigGroups.

(** [ConfigGroups.test_create_negative]; [names] is
    [invalid_values_list('ui')]. *)
Definition test_create_negative (names : list string) : prog value :=
  Session.scoped (fun session =>
    for_each names (fun name =>
      subTest (
        perform (Helper "make_config_groups" [name]);;
        error ← perform (WaitUntilElement (common_locators "name_haserror"));
        assertIsNotNone error;;
        search ← perform (Helper "configgroups.search" [name]);
        assertIsNone search))).

(** [ConfigGroups.test_update_positive]; [name] is the generated string
    and [new_names] is [generate_strings_list()]. *)
Definition test_update_positive (name : string) (new_names : list string)
  : prog value :=
  Session.scoped (fun session =>
    for_each new_names (fun new_name =>
      subTest (
        perform (Helper "make_config_groups" [name]);;
        search ← perform (Helper "configgroups.search" [name]);
        assertIsNotNone search;;
        perform (Helper "configgroups.update" [name; new_name]);;
        search ← perform (Helper "configgroups.search" [new_name]);
        assertIsNotNone search))).

(** [ConfigGroups.test_delete_positive]; [names] is
    [generate_strings_list(len1=8)]. *)
Definition test_delete_positive (names : list string) : prog value :=
  Session.scoped (fun session =>
    for_each names (fun name =>
      subTest (
        perform (Helper "make_config_groups" [name]);;
        perform (Helper "configgroups.delete" [name])))).

End ConfigGroups.

(** [tests/foreman/ui/test_medium.py]; the generated names and the URLs
    built from them are arguments. *)
Module Medium.

(** [Medium.test_positive_create_medium] *)
Definition test_positive_create_medium (name path : string) : prog value :=
  Session.scoped (fun session =>
    perform (Helper "make_media" [name; path; "Red Hat"]);;
    found ← perform (Helper "medium.search" [name]);
    assertIsNotNone found).

(** [Medium.test_negative_create_medium_with_long_names] *)
Definition test_negative_create_medium_with_long_names (name path : string)
  : prog value :=
  Session.scoped (fun session =>
    perform (Helper "make_media" [name; path; "Red Hat"]);;
    error ← perform (WaitUntilElement (common_locators "name_haserror"));
    assertIsNotNone error;;
    found ← perform (Helper "medium.search" [name]);
    assertIsNone found).

(** [Medium.test_negative_create_medium_with_empty_strings] *)
Definition test_negative_create_medium_with_empty_strings (name path : string)
  : prog value :=
  Session.scoped (fun session =>
    perform (Helper "make_media" [name; path; "Red Hat"]);;
    error ← perform (WaitUntilElement (common_locators "name_haserror"));
    assertIsNotNone error).

(** [Medium.test_negative_create_medium_with_same_name] *)
Definition test_negative_create_medium_with_same_name (name path : string)
  : prog value :=
  Session.scoped (fun session =>
    perform (Helper "make_media" [name; path; "Red Hat"]);;
    found ← perform (Helper "medium.search" [name]);
    assertIsNotNone found;;
    perform (Helper "make_media" [name; path; "Red Hat"]);;
    error ← perform (WaitUntilElement (common_locators "name_haserror"));
    assertIsNotNone error).

(** [Medium.test_negative_create_medium_without_path] *)
Definition test_negative_create_medium_without_path (name : string)
  : prog value :=
  Session.scoped (fun session =>
    perform (Helper "make_media" [name; ""; "Red Hat"]);;
    error ← perform (WaitUntilElement (common_locators "haserror"));
    assertIsNotNone error;;
    found ← perform (Helper "medium.search" [name]);
    assertIsNone found).

(** [Medium.test_negative_create_medium_with_same_path] *)
Definition test_negative_create_medium_with_same_path
    (name new_name path : string) : prog value :=
  Session.scoped (fun session =>
    perform (Helper "make_media" [name; path; "Red Hat"]);;
    found ← perform (Helper "medium.search" [name]);
    assertIsNotNone found;;
    perform (Helper "make_media" [new_name; path; "Red Hat"]);;
    error ← perform (WaitUntilElement (common_locators "haserror"));
    assertIsNotNone error;;
    found ← perform (Helper "medium.search" [new_name]);
    assertIsNone found).

(** [self.assertTrue(expr, msg)]: the truth of [expr] decides, [msg] is
    only the message of a failure. *)
Definition assertTrue (expr : bool) (msg : value) : prog value :=
  if expr then Ret VNone else Throw AssertionError.

(** [Medium.test_update_medium].  Its last statement is
    [self.assertTrue(self, self.medium.search(newname))]: the search is
    made, and what is asserted is the test case object itself, a true
    value, with the answer of the search as the message. *)
Definition test_update_medium (name newname path newpath : string)
  : prog value :=
  Session.scoped (fun session =>
    perform (Helper "make_media" [name; path; "Red Hat"]);;
    found ← perform (Helper "medium.search" [name]);
    assertIsNotNone found;;
    perform (Helper "medium.update" [name; newname; newpath; "Debian"]);;
    renamed ← perform (Helper "medium.search" [newname]);
    assertTrue true renamed).

End Medium.

(** [tests/foreman/api/test_smartproxy.py], [MissingAttrTestCase] *)
Module SmartProxy.

(** [self.assertGreater(a, b)] *)
Definition assertGreater (a b : nat) : prog value :=
  if (b <? a)%nat then Ret VNone else Throw AssertionError.

(** [MissingAttrTestCase.test_location]; [names] is what
    [one_to_many_names('location')] gives and [smart_proxy_attrs] the
    attribute names [setUpClass] read off the server's response. *)
Definition test_location (names smart_proxy_attrs : gset string) : prog value :=
  assertGreater (size (names ∩ smart_proxy_attrs)) 1.

(** [MissingAttrTestCase.test_organization]; [names] is what
    [one_to_many_names('organization')] gives. *)
Definition test_organization (names smart_proxy_attrs : gset string)
  : prog value :=
  assertGreater (size (names ∩ smart_proxy_attrs)) 1.

End SmartProxy.

(** * Properties *)

(** ** Counting characters *)

Lemma len_app (s1 s2 : string) : len (s1 +:+ s2) = len s1 + len s2.
Proof.
  induction s1 as [|b s1 IH]; [done|].
  change (String b s1 +:+ s2) with (String b (s1 +:+ s2)).
  cbn [len]. rewrite IH. lia.
Qed.

(** The number of characters is at most the number of bytes. *)
Lemma len_le_length (s : string) : len s <= String.length s.
Proof.
  induction s as [|b s IH]; [done|]. cbn.
  destruct (is_continuation b); lia.
Qed.

Lemma is_continuation_byte (n : N) :
  (n < 256)%N ->
  is_continuation (ascii_of_N n) = (128 <=? n)%N && (n <? 192)%N.
Proof.
  intros Hn. unfold is_continuation. by rewrite N_ascii_embedding.
Qed.

(** A byte below 0x80 or from 0xC0 on starts a character. *)
Lemma leading_byte (n : N) :
  (n < 128 \/ 192 <= n < 256)%N -> is_continuation (ascii_of_N n) = false.
Proof.
  intros Hn. rewrite is_continuation_byte by lia.
  destruct (N.leb_spec 128 n), (N.ltb_spec n 192); cbn; try done; lia.
Qed.

(** A byte from 0x80 to 0xBF continues one. *)
Lemma trailing_byte (n : N) :
  (n < 64)%N -> is_continuation (ascii_of_N (128 + n)) = true.
Proof.
  intros Hn. rewrite is_continuation_byte by lia.
  destruct (N.leb_spec 128 (128 + n)), (N.ltb_spec (128 + n) 192);
    cbn; try done; lia.
Qed.

(** The encoding of one character counts as one character. *)
Lemma len_utf8_char (c : N) : len (utf8_char c) = 1.
Proof.
  unfold utf8_char.
  destruct (N.ltb_spec c 128) as [H1|H1];
    [|destruct (N.ltb_spec c 2048) as [H2|H2];
      [|destruct (N.ltb_spec c 65536) as [H3|H3]]]; cbn [len].
  - rewrite leading_byte by lia. done.
  - assert (Hq : (c / 64 < 32)%N)
      by (apply N.Div0.div_lt_upper_bound; lia).
    remember (c / 64)%N as q. rewrite leading_byte by lia.
    rewrite !trailing_byte by (by apply N.mod_lt). done.
  - assert (Hq : (c / 4096 < 16)%N)
      by (apply N.Div0.div_lt_upper_bound; lia).
    remember (c / 4096)%N as q. rewrite leading_byte by lia.
    rewrite !trailing_byte by (by apply N.mod_lt). done.
  - assert (Hq : ((c / 262144) mod 8 < 8)%N) by (by apply N.mod_lt).
    remember ((c / 262144) mod 8)%N as q. rewrite leading_byte by lia.
    rewrite !trailing_byte by (by apply N.mod_lt). done.
Qed.

(** [len] counts the characters of a string, whatever they are. *)
Lemma len_utf8 (cs : list N) : len (utf8 cs) = length cs.
Proof.
  induction cs as [|c cs IH]; [done|].
  cbn [utf8 length]. by rewrite len_app, len_utf8_char, IH.
Qed.

(** The letter e with an acute accent is code point 233: two bytes, one
    character. *)
Lemma len_accented :
  utf8 (replicate 16 233%N) = "éééééééééééééééé" /\
  String.length "éééééééééééééééé" = 32 /\
  len "éééééééééééééééé" = 16.
Proof. by vm_compute. Qed.

(** ** Running programs *)

Section RunLemmas.
Context {W : Type} (browser : call -> W -> outcome value * W).

(** A handled program runs its first part, then the handler on the outcome
    from the state the first part left. *)
Lemma run_handle {A B} (p : prog A) (h : outcome A -> prog B) (w : W) :
  run browser (handle p h) w =
  let '(t1, o1, w1) := run browser p w in
  let '(t2, o2, w2) := run browser (h o1) w1 in
  (t1 ++ t2, o2, w2).
Proof.
  revert w; induction p as [a|e|c k IH]; intros w; simpl.
  - by destruct (run browser (h (Returned a)) w) as [[??]?].
  - by destruct (run browser (h (Raised e)) w) as [[??]?].
  - destruct (browser c w) as [r w1]. rewrite IH.
    destruct (run browser (k r) w1) as [[t1 o1] w2].
    by destruct (run browser (h o1) w2) as [[??]?].
Qed.

(** Sequencing stops at the first exception. *)
Lemma run_bind {A B} (p : prog A) (f : A -> prog B) (w : W) :
  run browser (p ≫= f) w =
  let '(t1, o1, w1) := run browser p w in
  match o1 with
  | Returned a =>
      let '(t2, o2, w2) := run browser (f a) w1 in (t1 ++ t2, o2, w2)
  | Raised e => (t1, Raised e, w1)
  end.
Proof.
  unfold mbind, prog_bind, bind. rewrite run_handle.
  destruct (run browser p w) as [[t1 [a|e]] w1]; simpl; [done|].
  by rewrite app_nil_r.
Qed.

Lemma run_perform (c : call) (w : W) :
  run browser (perform c) w =
  let '(r, w1) := browser c w in ([(c, r)], r, w1).
Proof. simpl. by destruct (browser c w) as [[v|e] w1]. Qed.

End RunLemmas.

(** One more answer of the browser, by cases. *)
Ltac answer :=
  match goal with
  | |- context [let '(_, _) := ?x in _] =>
      destruct x as [[?v|?e] ?w] eqn:?; cbn
  end.

(** The next answer of a browser that never raises. *)
Ltac answer_ok H :=
  match goal with
  | |- context [let '(_, _) := ?b ?c ?w in _] =>
      let v := fresh "v" in
      let w1 := fresh "w" in
      let E := fresh "E" in
      destruct (H c w) as (v & w1 & E); rewrite E; cbn
  end.

(** The truth value of an answer, by cases. *)
Ltac by_value :=
  match goal with
  | |- context [truthy ?v] => is_var v; destruct v; cbn
  | |- context [on_element ?v _] => is_var v; destruct v; cbn
  end.

(** Membership in a list written out, by cases on the position. *)
Ltac mem H :=
  repeat match type of H with
         | _ ∈ _ :: _ => apply elem_of_cons in H as [H|H]
         | _ ∈ [] => by apply elem_of_nil in H
         end.

(** An event of a trace written out. *)
Ltac find_event :=
  repeat first [apply list_elem_of_here | apply list_elem_of_further].

(** ** The Environment page object *)

Section PageObject.
Context {W : Type} (browser : call -> W -> outcome value * W).
Import Environment.

(** [search] navigates, then asks [search_entity] once, with the locator
    its length test picks; what [search_entity] answers is the result. *)
Lemma run_search (name : string) (w : W) :
  run browser (search name) w =
  let '(r, w1) := browser GoToEnvironments w in
  match r with
  | Returned _ =>
      let '(r2, w2) := browser (SearchEntity name (search_locator name)) w1 in
      ([(GoToEnvironments, r); (SearchEntity name (search_locator name), r2)],
       r2, w2)
  | Raised e => ([(GoToEnvironments, r)], Raised e, w1)
  end.
Proof.
  unfold search, search_locator. cbn.
  destruct (browser GoToEnvironments w) as [[v|e] w1]; cbn; [|done].
  destruct (len name <=? 30)%nat; cbn; by answer.
Qed.

(** C1: once the navigation has returned, [search] looks the entity up
    with the exact-name locator [locators['env.env_name']] when the name
    has at most 30 characters, and with the filtered-search locator
    [common_locators['select_filtered_entity']] when it has more; a name of
    exactly 30 characters takes the exact-name locator. *)
Theorem search_dispatch (name : string) (w : W) :
  (exists v w1, browser GoToEnvironments w = (Returned v, w1)) ->
  (len name <= 30 ->
   calls browser (search name) w =
   [GoToEnvironments; SearchEntity name (locators "env.env_name")]) /\
  (30 < len name ->
   calls browser (search name) w =
   [GoToEnvironments;
    SearchEntity name (common_locators "select_filtered_entity")]) /\
  (len name = 30 ->
   calls browser (search name) w =
   [GoToEnvironments; SearchEntity name (locators "env.env_name")]).
Proof.
  intros (v & w1 & Hnav).
  assert (Hle : len name <= 30 ->
    calls browser (search name) w =
    [GoToEnvironments; SearchEntity name (locators "env.env_name")]).
  { intros Hlen%Nat.leb_le. unfold calls, trace. rewrite run_search, Hnav.
    unfold search_locator. rewrite Hlen.
    by destruct (browser (SearchEntity name (locators "env.env_name")) w1). }
  split; [exact Hle|split].
  - intros Hlen%Nat.leb_gt. unfold calls, trace. rewrite run_search, Hnav.
    unfold search_locator. rewrite Hlen.
    by destruct (browser (SearchEntity name
                   (common_locators "select_filtered_entity")) w1).
  - intros Hlen. apply Hle. lia.
Qed.

(** C4: the first thing [search] does is go to the environments listing,
    and whatever else it does is a [search_entity] lookup of the name; it
    returns exactly what that lookup answered, the element or [None], so a
    lookup that finds nothing makes [search] return [None]; [search] raises
    only an exception that one of the two calls raised. *)
Theorem search_navigates_first (name : string) (w : W) :
  (exists r rest,
     trace browser (search name) w = (GoToEnvironments, r) :: rest /\
     forall c, c ∈ rest.*1 -> exists l, c = SearchEntity name l) /\
  (forall v, result browser (search name) w = Returned v ->
     exists l,
       (SearchEntity name l, Returned v) ∈ trace browser (search name) w) /\
  (forall l v,
     (SearchEntity name l, Returned v) ∈ trace browser (search name) w ->
     result browser (search name) w = Returned v) /\
  (forall e, result browser (search name) w = Raised e ->
     exists c, (c, Raised e) ∈ trace browser (search name) w).
Proof.
  unfold calls, trace, result. rewrite run_search.
  destruct (browser GoToEnvironments w) as [[v0|e0] w1]; cbn.
  - destruct (browser (SearchEntity name (search_locator name)) w1)
      as [r2 w2]; cbn.
    split; [|split; [|split]].
    + eexists _, _; split; [reflexivity|]. intros c Hc. cbn in Hc.
      apply list_elem_of_singleton in Hc. eauto.
    + intros v ->. eexists. apply list_elem_of_further, list_elem_of_here.
    + intros l v Hin. apply elem_of_cons in Hin as [[=]|Hin].
      apply list_elem_of_singleton in Hin. congruence.
    + intros e ->. eexists. apply list_elem_of_further, list_elem_of_here.
  - split; [|split; [|split]].
    + eexists _, _; split; [reflexivity|]. intros c Hc. cbn in Hc.
      by apply elem_of_nil in Hc.
    + intros v [=].
    + intros l v Hin. by apply list_elem_of_singleton in Hin.
    + intros e [= ->]. eexists. apply list_elem_of_here.
Qed.

(** [update] is [search] followed, for a located element, by the edit. *)
Lemma run_update (old_name : string) (orgs new_orgs : option (list string))
    (new_name : option string) (org_select : bool) (w : W) :
  run browser (update old_name orgs new_orgs new_name org_select) w =
  let '(t1, o1, w1) := run browser (search old_name) w in
  match o1 with
  | Returned VNone => (t1, Returned VNone, w1)
  | Returned (VElem e) =>
      let '(t2, o2, w2) :=
        run browser
          (perform (ElementClick e);;
           found ← perform (WaitUntilElement (locators "env.name"));
           (if truthy found && truthy_str new_name then
              perform (FieldUpdate "env.name" new_name)
            else Ret VNone);;
           perform (ConfigureEntity orgs (FILTER "env_org")
                      (tab_locators "tab_org") (Given new_orgs) org_select);;
           perform (Click (common_locators "submit"));;
           Ret VNone) w1 in
      (t1 ++ t2, o2, w2)
  | Raised e => (t1, Raised e, w1)
  end.
Proof.
  unfold update. rewrite run_bind.
  destruct (run browser (search old_name) w) as [[t1 [[|e]|e]] w1]; cbn;
    [by rewrite app_nil_r|done..].
Qed.

(** C5: when [search] returns [None] for [old_name], [update] is that
    search and nothing more: the same calls, namely the navigation and the
    lookup, no click, no field edit, no association change and no submit;
    it returns [None] without raising and leaves the session in the state
    the search left it in. *)
Theorem update_absent (old_name : string) (orgs new_orgs : option (list string))
    (new_name : option string) (org_select : bool) (w : W) :
  result browser (search old_name) w = Returned VNone ->
  run browser (update old_name orgs new_orgs new_name org_select) w =
    run browser (search old_name) w /\
  result browser (update old_name orgs new_orgs new_name org_select) w =
    Returned VNone /\
  calls browser (update old_name orgs new_orgs new_name org_select) w =
    [GoToEnvironments; SearchEntity old_name (search_locator old_name)] /\
  final browser (update old_name orgs new_orgs new_name org_select) w =
    final browser (search old_name) w.
Proof.
  unfold calls, trace, result, final. rewrite run_update, run_search.
  destruct (browser GoToEnvironments w) as [[v0|e0] w1]; cbn; [|done].
  destruct (browser (SearchEntity old_name (search_locator old_name)) w1)
    as [r2 w2]; cbn.
  by intros ->.
Qed.

(** C9: with [orgs] empty or [None], [create] never calls
    [configure_entity]: every call it makes is the click on the
    new-environment control, the wait for the name field, the lookup of
    that field, the typing of the name into it, or the click on submit.
    When nothing below raises, the run is the click, the wait and the
    submit, with the typing in between when the name field showed up; a
    field that the wait saw and [find_element] then misses ends the run
    with the [AttributeError] of the call on [None]. *)
Theorem create_without_orgs (name : string) (orgs : option (list string))
    (org_select : bool) (w : W) :
  orgs = None \/ orgs = Some [] ->
  Forall (fun c =>
            c = Click (locators "env.new") \/
            c = WaitUntilElement (locators "env.name") \/
            c = FindElement (locators "env.name") \/
            (exists e, c = SendKeys e name) \/
            c = Click (common_locators "submit"))
    (calls browser (create name orgs org_select) w) /\
  (never_raises browser ->
   (calls browser (create name orgs org_select) w =
      [Click (locators "env.new"); WaitUntilElement (locators "env.name");
       Click (common_locators "submit")] /\
    result browser (create name orgs org_select) w = Returned VNone) \/
   (exists e,
      calls browser (create name orgs org_select) w =
        [Click (locators "env.new"); WaitUntilElement (locators "env.name");
         FindElement (locators "env.name"); SendKeys e name;
         Click (common_locators "submit")] /\
      result browser (create name orgs org_select) w = Returned VNone) \/
   (calls browser (create name orgs org_select) w =
      [Click (locators "env.new"); WaitUntilElement (locators "env.name");
       FindElement (locators "env.name")] /\
    result browser (create name orgs org_select) w = Raised AttributeError)).
Proof.
  intros Horgs.
  assert (Hfalse : truthy_list orgs = false) by (by destruct Horgs as [->| ->]).
  unfold calls, trace, result, create. rewrite Hfalse. split.
  - cbn. repeat (first [answer | by_value]).
    all: repeat (apply Forall_cons_2; [eauto 10|]); apply Forall_nil_2.
  - intros Hok. cbn. answer_ok Hok. answer_ok Hok. by_value.
    { answer_ok Hok. by left. }
    answer_ok Hok. by_value; [by right; right|].
    answer_ok Hok. answer_ok Hok. right; left. by eexists.
Qed.

(** C2, as the code has it: when the wait for the name field answers
    [None], [create] neither looks the field up nor types the name, and it
    does not stop there: with nothing below raising it goes on to the
    association editor (for non-empty [orgs]) and to the click on submit,
    and returns [None]. *)
Theorem create_name_field_missing (name : string) (orgs : option (list string))
    (org_select : bool) (w : W) :
  (WaitUntilElement (locators "env.name"), Returned VNone)
    ∈ trace browser (create name orgs org_select) w ->
  Forall (fun c => c <> FindElement (locators "env.name") /\
                   forall e, c <> SendKeys e name)
    (calls browser (create name orgs org_select) w) /\
  (never_raises browser ->
   calls browser (create name orgs org_select) w =
     [Click (locators "env.new"); WaitUntilElement (locators "env.name")] ++
     (if truthy_list orgs then
        [ConfigureEntity orgs (FILTER "env_org") (tab_locators "tab_org")
           Default org_select]
      else []) ++
     [Click (common_locators "submit")] /\
   result browser (create name orgs org_select) w = Returned VNone).
Proof.
  unfold calls, trace, result, create.
  destruct (truthy_list orgs); cbn.
  all: answer; [|intros Hin; mem Hin; discriminate Hin].
  all: answer; [|intros Hin; mem Hin; discriminate Hin].
  all: by_value; [|repeat (first [answer | by_value]);
                   intros Hin; mem Hin; discriminate Hin].
  all: intros _; split.
  all: try (intros Hok; repeat answer_ok Hok; done).
  all: repeat answer.
  all: repeat (apply Forall_cons_2; [split; [done|intros; done]|]);
    apply Forall_nil_2.
Qed.

(** C3, as the code has it: for an [old_name] that [search] locates and
    with nothing below raising, [update] clicks the located element, waits
    for the name field, rewrites the name when that wait found the field
    and a non-empty new name was given, edits the organization
    associations through [configure_entity] and clicks submit, in that
    order and with exactly one click on submit. *)
Theorem update_sequence (old_name : string) (orgs new_orgs : option (list string))
    (new_name : option string) (org_select : bool) (e : element) (w : W) :
  never_raises browser ->
  result browser (search old_name) w = Returned (VElem e) ->
  exists found,
    (WaitUntilElement (locators "env.name"), Returned found)
      ∈ trace browser (update old_name orgs new_orgs new_name org_select) w /\
    calls browser (update old_name orgs new_orgs new_name org_select) w =
      [GoToEnvironments; SearchEntity old_name (search_locator old_name);
       ElementClick e; WaitUntilElement (locators "env.name")] ++
      (if truthy found && truthy_str new_name then
         [FieldUpdate "env.name" new_name]
       else []) ++
      [ConfigureEntity orgs (FILTER "env_org") (tab_locators "tab_org")
         (Given new_orgs) org_select;
       Click (common_locators "submit")] /\
    result browser (update old_name orgs new_orgs new_name org_select) w =
      Returned VNone /\
    occurrences (Click (common_locators "submit"))
      (calls browser (update old_name orgs new_orgs new_name org_select) w) = 1.
Proof.
  intros Hok. unfold calls, trace, result. rewrite run_update, run_search.
  destruct (browser GoToEnvironments w) as [[v0|e0] w1]; cbn; [|done].
  destruct (browser (SearchEntity old_name (search_locator old_name)) w1)
    as [r2 w2]; cbn.
  intros ->. answer_ok Hok. answer_ok Hok.
  match goal with
  | |- context [truthy ?v && _] => exists v; destruct (truthy v && truthy_str new_name)
  end; cbn; repeat answer_ok Hok.
  all: split; [find_event|].
  all: split; [reflexivity|]; split; reflexivity.
Qed.

(** C10: in [update] on a located entity, a [field_update] call is made
    only on the name field, only with the given [new_name], only when that
    is not [None] and the wait found the field; with [new_name] [None] no
    [field_update] is made at all.  Whatever [new_name] is, with nothing
    below raising the run ends with the [configure_entity] call followed by
    the click on submit. *)
Theorem update_rename_guard (old_name : string)
    (orgs new_orgs : option (list string)) (new_name : option string)
    (org_select : bool) (e : element) (w : W) :
  result browser (search old_name) w = Returned (VElem e) ->
  (forall loc txt,
     FieldUpdate loc txt
       ∈ calls browser (update old_name orgs new_orgs new_name org_select) w ->
     loc = "env.name" /\ txt = new_name /\ (exists s, new_name = Some s) /\
     exists field,
       (WaitUntilElement (locators "env.name"), Returned (VElem field))
         ∈ trace browser (update old_name orgs new_orgs new_name org_select) w) /\
  (new_name = None ->
   Forall (fun c => forall loc txt, c <> FieldUpdate loc txt)
     (calls browser (update old_name orgs new_orgs new_name org_select) w)) /\
  (never_raises browser ->
   (exists before,
      calls browser (update old_name orgs new_orgs new_name org_select) w =
        before ++
        [ConfigureEntity orgs (FILTER "env_org") (tab_locators "tab_org")
           (Given new_orgs) org_select;
         Click (common_locators "submit")]) /\
   result browser (update old_name orgs new_orgs new_name org_select) w =
     Returned VNone).
Proof.
  unfold calls, trace, result. rewrite run_update, run_search.
  destruct (browser GoToEnvironments w) as [[v0|e0] w1]; cbn; [|done].
  destruct (browser (SearchEntity old_name (search_locator old_name)) w1)
    as [r2 w2]; cbn.
  intros ->. split; [|split].
  - answer; [|intros ?? Hin; mem Hin; discriminate Hin].
    answer; [|intros ?? Hin; mem Hin; discriminate Hin].
    by_value.
    { repeat answer; intros ?? Hin; mem Hin; discriminate Hin. }
    destruct (truthy_str new_name) eqn:Hname; cbn.
    + assert (exists s, new_name = Some s) as Hs
        by (destruct new_name; [eauto|done]).
      repeat answer; intros ?? Hin; mem Hin; try discriminate Hin.
      all: injection Hin as -> ->; repeat split; try done.
      all: eexists; find_event.
    + repeat answer; intros ?? Hin; mem Hin; discriminate Hin.
  - intros ->. cbn. answer; [answer|]; [rewrite andb_false_r; cbn|..].
    all: repeat answer.
    all: repeat (apply Forall_cons_2; [intros; done|]); apply Forall_nil_2.
  - intros Hok. answer_ok Hok. answer_ok Hok.
    match goal with
    | |- context [truthy ?v && _] => destruct (truthy v && truthy_str new_name)
    end; cbn; repeat answer_ok Hok.
    all: split; [|done].
    + by eexists [_; _; _; _; _].
    + by eexists [_; _; _; _].
Qed.

End PageObject.

(** ** The page object on a concrete page *)

Lemma page_never_raises (present : locator -> option element)
    (listed : string -> option element) :
  never_raises (page present listed).
Proof. intros c n. by eexists _, _. Qed.

(** On a page that serves the navigation, a name of exactly 30 characters
    is looked up by exact name and one of 31 through the filtered search;
    a name of 16 accented characters, 32 bytes long, is looked up by exact
    name. *)
Lemma search_dispatch_witness :
  calls (page form_up only_dev)
    (Environment.search "abcdefghijklmnopqrstuvwxyz0123") 0 =
  [GoToEnvironments;
   SearchEntity "abcdefghijklmnopqrstuvwxyz0123" (locators "env.env_name")] /\
  calls (page form_up only_dev)
    (Environment.search "abcdefghijklmnopqrstuvwxyz01234") 0 =
  [GoToEnvironments;
   SearchEntity "abcdefghijklmnopqrstuvwxyz01234"
     (common_locators "select_filtered_entity")] /\
  calls (page form_up only_dev)
    (Environment.search "éééééééééééééééé") 0 =
  [GoToEnvironments;
   SearchEntity "éééééééééééééééé" (locators "env.env_name")].
Proof.
  split; [|split].
  - apply (search_dispatch (page form_up only_dev)
             "abcdefghijklmnopqrstuvwxyz0123" 0).
    + exists VNone, 1. reflexivity.
    + reflexivity.
  - apply (search_dispatch (page form_up only_dev)
             "abcdefghijklmnopqrstuvwxyz01234" 0).
    + exists VNone, 1. reflexivity.
    + vm_compute. lia.
  - apply (proj1 (search_dispatch (page form_up only_dev) "éééééééééééééééé" 0
                    (ex_intro _ VNone (ex_intro _ 1 eq_refl)))).
    vm_compute. lia.
Defined.

(** "qa" is not on the listing: the lookup answers [None] and so does
    [search]. *)
Lemma search_navigates_first_witness :
  result (page form_up only_dev) (Environment.search "qa") 0 = Returned VNone.
Proof.
  apply (search_navigates_first (page form_up only_dev) "qa" 0)
    with (l := locators "env.env_name").
  cbn. find_event.
Defined.

(** Updating "qa", which the listing does not show, is the search alone. *)
Lemma update_absent_witness :
  result (page form_up only_dev) (Environment.search "qa") 0 = Returned VNone /\
  calls (page form_up only_dev)
    (Environment.update "qa" (Some ["org1"]) None (Some "prod") false) 0 =
  [GoToEnvironments; SearchEntity "qa" (locators "env.env_name")].
Proof.
  split; [reflexivity|].
  apply (update_absent (page form_up only_dev) "qa" (Some ["org1"]) None
           (Some "prod") false 0).
  reflexivity.
Defined.

(** Creating "qa" with an empty list of organizations. *)
Lemma create_without_orgs_witness :
  Forall (fun c =>
            c = Click (locators "env.new") \/
            c = WaitUntilElement (locators "env.name") \/
            c = FindElement (locators "env.name") \/
            (exists e, c = SendKeys e "qa") \/
            c = Click (common_locators "submit"))
    (calls (page form_up only_dev) (Environment.create "qa" (Some []) true) 0).
Proof.
  apply (create_without_orgs (page form_up only_dev) "qa" (Some []) true 0).
  right. reflexivity.
Defined.

(** C2, the claim as stated fails: on a page where the name field never
    shows, the wait answers [None], and [create] signals nothing: it goes
    on to click submit and returns [None]. *)
Lemma create_submits_without_name_field :
  run (page form_missing only_dev) (Environment.create "qa" None true) 0 =
  ([(Click (locators "env.new"), Returned VNone);
    (WaitUntilElement (locators "env.name"), Returned VNone);
    (Click (common_locators "submit"), Returned VNone)],
   Returned VNone, 3).
Proof. reflexivity. Qed.

(** The same page with an organization to assign: the association editor
    and the submit still run. *)
Lemma create_name_field_missing_witness :
  calls (page form_missing only_dev)
    (Environment.create "qa" (Some ["org1"]) true) 0 =
  [Click (locators "env.new"); WaitUntilElement (locators "env.name");
   ConfigureEntity (Some ["org1"]) (FILTER "env_org") (tab_locators "tab_org")
     Default true;
   Click (common_locators "submit")] /\
  result (page form_missing only_dev)
    (Environment.create "qa" (Some ["org1"]) true) 0 = Returned VNone.
Proof.
  apply (create_name_field_missing (page form_missing only_dev) "qa"
           (Some ["org1"]) true 0).
  - cbn. find_event.
  - apply page_never_raises.
Defined.

(** C3, the claim as stated fails: "dev" is located and a new name is
    supplied, but the name field does not show, and [update] goes from the
    wait straight to the association editor: no rename is made. *)
Lemma update_keeps_name_without_field :
  run (page form_missing only_dev)
    (Environment.update "dev" None None (Some "prod") false) 0 =
  ([(GoToEnvironments, Returned VNone);
    (SearchEntity "dev" (locators "env.env_name"), Returned (VElem 1));
    (ElementClick 1, Returned VNone);
    (WaitUntilElement (locators "env.name"), Returned VNone);
    (ConfigureEntity None (FILTER "env_org") (tab_locators "tab_org")
       (Given None) false, Returned VNone);
    (Click (common_locators "submit"), Returned VNone)],
   Returned VNone, 6).
Proof. reflexivity. Qed.

(** Renaming "dev" to "prod" with the form up: one submit. *)
Lemma update_sequence_witness :
  result (page form_up only_dev) (Environment.search "dev") 0 =
    Returned (VElem 1) /\
  occurrences (Click (common_locators "submit"))
    (calls (page form_up only_dev)
       (Environment.update "dev" None None (Some "prod") false) 0) = 1.
Proof.
  split; [reflexivity|].
  destruct (update_sequence (page form_up only_dev) "dev" None None
              (Some "prod") false 1 0 (page_never_raises _ _) eq_refl)
    as (found & _ & _ & _ & Hone).
  exact Hone.
Defined.

(** Updating the organizations of "dev" without a new name. *)
Lemma update_rename_guard_witness :
  result (page form_up only_dev) (Environment.search "dev") 0 =
    Returned (VElem 1) /\
  Forall (fun c => forall loc txt, c <> FieldUpdate loc txt)
    (calls (page form_up only_dev)
       (Environment.update "dev" (Some ["org1"]) (Some ["org2"]) None false) 0).
Proof.
  split; [reflexivity|].
  apply (update_rename_guard (page form_up only_dev) "dev" (Some ["org1"])
           (Some ["org2"]) None false 1 0); reflexivity.
Defined.

(** ** Session scoping *)

Section Blocks.
Context {W : Type} (browser : call -> W -> outcome value * W).

(** A scoped block: the login, then the block, then the logout; a failed
    login ends the run before the block. *)
Lemma run_scoped (body : Session.session -> prog value) (w : W) :
  run browser (Session.scoped body) w =
  let '(r0, w1) := browser Login w in
  match r0 with
  | Raised e => ([(Login, r0)], Raised e, w1)
  | Returned _ =>
      let '(t, o, w2) := run browser (body Session.Self) w1 in
      let '(r, w3) := browser Logout w2 in
      ((Login, r0) :: t ++ [(Logout, r)],
       match r with
       | Raised e => Raised e
       | Returned _ =>
           match o with
           | Returned _ => Returned VNone
           | Raised e => Raised e
           end
       end,
       w3)
  end.
Proof.
  unfold Session.scoped, with_, Session.enter. rewrite run_bind, run_bind.
  rewrite run_perform. destruct (browser Login w) as [[v|e] w1]; cbn; [|done].
  rewrite run_handle.
  destruct (run browser (body Session.Self) w1) as [[t [a|e]] w2]; cbn.
  - by destruct (browser Logout w2) as [[v1|e1] w3].
  - by destruct (browser Logout w2) as [[v1|e1] w3].
Qed.

(** C6: once the login of a [with Session(...)] block has succeeded, the
    run is the login, the calls of the block and then the logout, whether
    the block returns or raises; the logout is the last call made, and an
    exception of the block still leaves the [with] statement after it. *)
Theorem session_logs_out (body : Session.session -> prog value) (w : W) :
  (exists v w1, browser Login w = (Returned v, w1)) ->
  exists v w1 r,
    browser Login w = (Returned v, w1) /\
    trace browser (Session.scoped body) w =
      (Login, Returned v) :: trace browser (body Session.Self) w1
        ++ [(Logout, r)] /\
    last (calls browser (Session.scoped body) w) = Some Logout /\
    result browser (Session.scoped body) w =
      match r with
      | Raised e => Raised e
      | Returned _ =>
          match result browser (body Session.Self) w1 with
          | Returned _ => Returned VNone
          | Raised e => Raised e
          end
      end.
Proof.
  intros (v & w1 & Hlogin). exists v, w1.
  unfold calls, trace, result. rewrite run_scoped, Hlogin.
  destruct (run browser (body Session.Self) w1) as [[t o] w2]; cbn.
  destruct (browser Logout w2) as [r w3]; cbn.
  exists r. split; [done|]. split; [done|]. split; [|done].
  rewrite fmap_app. cbn. by rewrite app_comm_cons, last_snoc.
Qed.

(** Both tests the claim is read from end with the logout. *)
Lemma test_remove_medium_logs_out (name path : string) (w : W) :
  (exists v w1, browser Login w = (Returned v, w1)) ->
  last (calls browser (test_remove_medium name path) w) = Some Logout.
Proof.
  intros (v & w1 & Hlogin). unfold calls, trace, test_remove_medium.
  rewrite run_scoped, Hlogin.
  match goal with
  | |- context [run browser ?b w1] =>
      destruct (run browser b w1) as [[t o] w2]
  end.
  destruct (browser Logout w2) as [r w3]; cbn.
  rewrite fmap_app. cbn. by rewrite app_comm_cons, last_snoc.
Qed.

Lemma test_create_positive_logs_out (names : list string) (w : W) :
  (exists v w1, browser Login w = (Returned v, w1)) ->
  last (calls browser (test_create_positive names) w) = Some Logout.
Proof.
  intros (v & w1 & Hlogin). unfold calls, trace, test_create_positive.
  rewrite run_scoped, Hlogin.
  match goal with
  | |- context [run browser ?b w1] =>
      destruct (run browser b w1) as [[t o] w2]
  end.
  destruct (browser Logout w2) as [r w3]; cbn.
  rewrite fmap_app. cbn. by rewrite app_comm_cons, last_snoc.
Qed.

End Blocks.

(** [make_media] breaks inside the block of [test_remove_medium]: the
    session is logged out all the same and the failure leaves the block. *)
Lemma session_logs_out_witness :
  last (calls (breaking "make_media")
          (test_remove_medium "abcdef" "http://mirror/abcdef") 0) =
    Some Logout /\
  result (breaking "make_media")
    (test_remove_medium "abcdef" "http://mirror/abcdef") 0 =
    Raised UINoSuchElementError.
Proof.
  destruct (session_logs_out (breaking "make_media")
              (fun session =>
                 perform (Helper "make_media"
                            ["abcdef"; "http://mirror/abcdef"; "Red Hat"]);;
                 perform (Helper "medium.delete" ["abcdef"]);;
                 Ret VNone)
              0 (ex_intro _ VNone (ex_intro _ 1 eq_refl)))
    as (v & w1 & r & _ & _ & Hlast & _).
  split; [exact Hlast|reflexivity].
Defined.

(** On a browser that answers [None] to everything each sub-test of
    [test_create_positive] fails its assertion; the failures stay inside
    [subTest], the loop visits every name and the session is logged out. *)
Lemma test_create_positive_on_blank :
  run blank (test_create_positive ["a"; "b"]) 0 =
  ([(Login, Returned VNone);
    (Helper "make_config_groups" ["a"], Returned VNone);
    (Helper "configgroups.search" ["a"], Returned VNone);
    (Helper "make_config_groups" ["b"], Returned VNone);
    (Helper "configgroups.search" ["b"], Returned VNone);
    (Logout, Returned VNone)],
   Returned VNone, 6).
Proof. reflexivity. Qed.

(** ** The product *)

Section ProductFacts.
Import Server.

(** An identifier that is gone stays gone under every request. *)
Lemma gone_step (id : nat) (s : server) (o : op) :
  gone id s -> gone id (step s o).
Proof.
  intros [Hnone Hlt]. destruct o as [k|d|cv repos|cv|cvv lce]; cbn.
  - split; cbn; [|lia]. rewrite lookup_insert_ne by lia. done.
  - unfold delete. destruct (entities s !! d); cbn; [|done].
    split; cbn; [|done]. rewrite lookup_delete. by case_decide.
  - unfold update_repository. by destruct (entities s !! cv) as [[]|].
  - unfold publish. destruct (entities s !! cv) as [[]|]; try done.
    split; cbn; [done|lia].
  - unfold promote.
    destruct (environment s !! cvv), (entities s !! lce) as [[]|]; done.
Qed.

Lemma gone_after (id : nat) (ops : list op) (s : server) :
  gone id s -> gone id (after ops s).
Proof.
  revert s. induction ops as [|o ops IH]; intros s Hs; [done|].
  cbn. apply IH. by apply gone_step.
Qed.

Lemma read_gone (id : nat) (s : server) :
  gone id s -> read id s = (Raised HTTPError, s).
Proof. intros [Hnone _]. unfold read. by rewrite Hnone. Qed.

Lemma delete_created (k : kind) (s : server) :
  exists s1, delete (next_id s) (create k s).2 = (Returned (), s1) /\
             gone (next_id s) s1.
Proof.
  unfold delete, create; cbn. rewrite lookup_insert_eq. eexists; split; [done|].
  split; cbn; [|lia]. apply lookup_delete_eq.
Qed.

(** C7: an entity of any kind that is created and then deleted, through
    the API or through the CLI, is gone for good: whatever requests follow,
    reading it back by its identifier raises the HTTP error through the
    API and the return-code error through the CLI. *)
Theorem read_after_delete_fails (k : kind) (s : server) :
  exists id s0 s1,
    create k s = (Returned id, s0) /\
    cli (create k) s = (Returned id, s0) /\
    delete id s0 = (Returned (), s1) /\
    cli (delete id) s0 = (Returned (), s1) /\
    forall ops,
      read id (after ops s1) = (Raised HTTPError, after ops s1) /\
      cli (read id) (after ops s1) = (Raised CLIReturnCodeError, after ops s1).
Proof.
  destruct (delete_created k s) as (s1 & Hdel & Hgone).
  exists (next_id s), (create k s).2, s1.
  split; [done|]. split; [done|]. split; [done|].
  split; [unfold cli; by rewrite Hdel|].
  intros ops. pose proof (read_gone _ _ (gone_after _ ops _ Hgone)) as Hread.
  split; [done|]. unfold cli. by rewrite Hread.
Qed.

(** *** Promotion *)

Lemma promote_new_environment (s : server) (cvv lce : nat) (envs : gset nat) :
  environment s !! cvv = Some envs ->
  entities s !! lce = Some LifecycleEnvironment ->
  lce ∉ envs ->
  exists s1,
    promote cvv lce s = (Returned (), s1) /\
    next_id s1 = next_id s /\
    entities s1 = entities s /\
    environment s1 !! cvv = Some (envs ∪ {[lce]}) /\
    size (envs ∪ {[lce]}) = S (size envs).
Proof.
  intros Hcvv Hlce Hnew. unfold promote. rewrite Hcvv, Hlce.
  eexists; split; [done|]. cbn. split; [done|]. split; [done|].
  split; [apply lookup_insert_eq|].
  rewrite size_union by (by apply disjoint_singleton_r).
  rewrite size_singleton. lia.
Qed.

Lemma publish_new_version (s : server) (cv : nat) :
  entities s !! cv = Some ContentView ->
  exists s1,
    publish cv s = (Returned (), s1) /\
    entities s1 = entities s /\
    version s1 !! cv = Some (default [] (version s !! cv) ++ [next_id s]) /\
    environment s1 !! next_id s = Some {[library]} /\
    size ({[library]} : gset nat) = 1.
Proof.
  intros Hcv. unfold publish. rewrite Hcv. eexists; split; [done|]. cbn.
  split; [done|]. split; [apply lookup_insert_eq|].
  split; [apply lookup_insert_eq|apply size_singleton].
Qed.

Lemma promote_all_new_environments (lces : list nat) :
  forall (s : server) (cvv : nat) (envs : gset nat),
  environment s !! cvv = Some envs ->
  NoDup lces ->
  Forall (fun lce => entities s !! lce = Some LifecycleEnvironment /\
                     lce ∉ envs) lces ->
  exists s1 envs1,
    promote_all cvv lces s = (Returned (), s1) /\
    environment s1 !! cvv = Some envs1 /\
    size envs1 = size envs + length lces.
Proof.
  induction lces as [|lce lces IH]; intros s cvv envs Hcvv Hnd Hall.
  - exists s, envs. cbn. split; [done|]. split; [done|]. lia.
  - apply NoDup_cons in Hnd as [Hnotin Hnd].
    apply Forall_cons in Hall as [[Hlce Hnew] Hall].
    destruct (promote_new_environment s cvv lce envs Hcvv Hlce Hnew)
      as (s1 & Hpromote & _ & Hent & Henv & Hsize).
    destruct (IH s1 cvv (envs ∪ {[lce]}) Henv Hnd) as (s2 & envs2 & H2 & H3 & H4).
    { rewrite Forall_forall in Hall |- *. intros x Hx.
      destruct (Hall x Hx) as [Hx1 Hx2]. split; [by rewrite Hent|].
      apply not_elem_of_union. split; [done|].
      apply not_elem_of_singleton. by intros ->. }
    exists s2, envs2. cbn. rewrite Hpromote. split; [done|]. split; [done|].
    rewrite H4, Hsize. lia.
Qed.

(** C8: promoting a version to a lifecycle environment it is not yet in
    succeeds and leaves it in exactly one more environment than before; a
    freshly published version is in exactly one environment; and after
    promotions to [k] distinct lifecycle environments other than that one
    it is in [k + 1] environments. *)
Theorem promote_adds_one_environment :
  (forall (s : server) (cvv lce : nat) (envs : gset nat),
     environment s !! cvv = Some envs ->
     entities s !! lce = Some LifecycleEnvironment ->
     lce ∉ envs ->
     exists s1,
       promote cvv lce s = (Returned (), s1) /\
       environment s1 !! cvv = Some (envs ∪ {[lce]}) /\
       size (envs ∪ {[lce]}) = size envs + 1) /\
  (forall (s : server) (cv : nat),
     entities s !! cv = Some ContentView ->
     exists s1 envs,
       publish cv s = (Returned (), s1) /\
       last (default [] (version s1 !! cv)) = Some (next_id s) /\
       environment s1 !! next_id s = Some envs /\
       size envs = 1) /\
  (forall (s : server) (cv : nat) (lces : list nat),
     entities s !! cv = Some ContentView ->
     NoDup lces ->
     Forall (fun lce => entities s !! lce = Some LifecycleEnvironment /\
                        lce <> library) lces ->
     exists s1 s2 envs,
       publish cv s = (Returned (), s1) /\
       promote_all (next_id s) lces s1 = (Returned (), s2) /\
       environment s2 !! next_id s = Some envs /\
       size envs = length lces + 1).
Proof.
  split; [|split].
  - intros s cvv lce envs Hcvv Hlce Hnew.
    destruct (promote_new_environment s cvv lce envs Hcvv Hlce Hnew)
      as (s1 & Hpromote & _ & _ & Henv & Hsize).
    exists s1. split; [done|]. split; [done|]. lia.
  - intros s cv Hcv.
    destruct (publish_new_version s cv Hcv) as (s1 & Hpub & _ & Hv & He & Hs).
    exists s1, {[library]}. split; [done|]. rewrite Hv. cbn.
    split; [apply last_snoc|done].
  - intros s cv lces Hcv Hnd Hall.
    destruct (publish_new_version s cv Hcv) as (s1 & Hpub & Hent & _ & He & Hs).
    destruct (promote_all_new_environments lces s1 (next_id s) {[library]} He Hnd)
      as (s2 & envs & Hall2 & Henv & Hsize).
    { rewrite Forall_forall in Hall |- *. intros x Hx.
      destruct (Hall x Hx) as [Hx1 Hx2]. split; [by rewrite Hent|].
      by apply not_elem_of_singleton. }
    exists s1, s2, envs. split; [done|]. split; [done|]. split; [done|].
    rewrite Hsize, Hs. lia.
Qed.

(** *** The tests of the sources, run on the product *)

Ltac run_test :=
  unfold mbind, mret, test_bind, test_ret, send, raise, assertRaises,
    assertEqual, subTest, first, cli; cbn.

Lemma created_then_deleted_reads_fail (k : kind) (s : server) :
  exists s1,
    delete (next_id s) (create k s).2 = (Returned (), s1) /\
    read (next_id s) s1 = (Raised HTTPError, s1).
Proof.
  destruct (delete_created k s) as (s1 & Hdel & Hgone).
  exists s1. split; [done|]. by apply read_gone.
Qed.

(** The delete tests of the sources pass on every state of the product. *)
Lemma test_delete_docker_repo_passes (s : server) :
  passes test_delete_docker_repo s.
Proof.
  unfold passes, test_delete_docker_repo. run_test.
  destruct (created_then_deleted_reads_fail Repository (create Product s).2)
    as (s1 & Hdel & Hread).
  cbn in Hdel. rewrite Hdel. cbn. cbn in Hread. rewrite Hread. cbn.
  by eexists _, _.
Qed.

Lemma test_positive_delete_1_runs (names : list string) (w : world) :
  exists s1, test_positive_delete_1 names w = (Returned (), World s1 (failures w)).
Proof.
  revert w. induction names as [|name names IH]; intros [s fs].
  - by exists s.
  - unfold test_positive_delete_1 in *. cbn [for_each]. run_test.
    destruct (created_then_deleted_reads_fail LifecycleEnvironment s)
      as (s1 & Hdel & Hread).
    cbn in Hdel. rewrite Hdel. cbn. cbn in Hread. rewrite Hread. cbn.
    apply (IH (World s1 fs)).
Qed.

Lemma test_positive_delete_1_passes (names : list string) (s : server) :
  passes (test_positive_delete_1 names) s.
Proof.
  destruct (test_positive_delete_1_runs names (World s [])) as [s1 H].
  by exists (), s1.
Qed.

Lemma test_delete_registry_runs (names : list string) (w : world) :
  exists s1, test_delete_registry names w = (Returned (), World s1 (failures w)).
Proof.
  revert w. induction names as [|name names IH]; intros [s fs].
  - by exists s.
  - unfold test_delete_registry in *. cbn [for_each]. run_test.
    destruct (created_then_deleted_reads_fail Registry s)
      as (s1 & Hdel & Hread).
    cbn in Hdel. rewrite Hdel. cbn. cbn in Hread. rewrite Hread. cbn.
    apply (IH (World s1 fs)).
Qed.

Lemma test_delete_registry_passes (names : list string) (s : server) :
  passes (test_delete_registry names) s.
Proof.
  destruct (test_delete_registry_runs names (World s [])) as [s1 H].
  by exists (), s1.
Qed.

(** Every state the product reaches from its initial one is well formed. *)
Lemma wf_initial : wf initial.
Proof.
  split; [cbn; unfold library; lia|]. intros id Hid. unfold initial in *.
  cbn in Hid. cbn [entities version]. split; [|done].
  apply lookup_singleton_ne. unfold library. lia.
Qed.

Lemma wf_step (s : server) (o : op) : wf s -> wf (step s o).
Proof.
  intros [Hlib Hfresh]. destruct o as [k|d|cv repos|cv|cvv lce]; cbn.
  - split; cbn; [lia|]. intros id Hid.
    rewrite lookup_insert_ne by lia. apply Hfresh. lia.
  - unfold delete. destruct (entities s !! d); cbn; [|done].
    split; cbn; [done|]. intros id Hid. destruct (Hfresh id Hid) as [H1 H2].
    split; [|done]. rewrite lookup_delete. by case_decide.
  - unfold update_repository. by destruct (entities s !! cv) as [[]|].
  - unfold publish. destruct (entities s !! cv) as [[]|] eqn:Hcv; try done.
    split; cbn; [lia|]. intros id Hid.
    destruct (Hfresh id ltac:(lia)) as [H1 H2]. split; [done|].
    rewrite lookup_insert_ne; [done|]. intros ->. congruence.
  - unfold promote.
    destruct (environment s !! cvv), (entities s !! lce) as [[]|]; done.
Qed.

Lemma wf_after (ops : list op) (s : server) : wf s -> wf (after ops s).
Proof.
  revert s. induction ops as [|o ops IH]; intros s Hs; [done|].
  cbn. apply IH. by apply wf_step.
Qed.

Lemma published_docker_content_view_runs (s : server) (fs : list exn) :
  wf s ->
  exists s1,
    published_docker_content_view (World s fs) =
      (Returned (next_id s + 3), World s1 fs) /\
    next_id s1 = next_id s + 4 /\
    (forall x, x < next_id s -> entities s1 !! x = entities s !! x) /\
    environment s1 !! (next_id s + 3) = Some {[library]}.
Proof.
  intros [Hlib Hfresh]. unfold published_docker_content_view.
  unfold update_repository, read_repository, publish, read_version,
    read_environment.
  destruct (Hfresh (S (S (next_id s))) ltac:(lia)) as [_ Hversion].
  repeat first [ rewrite lookup_insert_eq | rewrite decide_True by done
               | rewrite Hversion | rewrite size_singleton
               | progress run_test ].
  replace (next_id s + 3) with (S (S (S (next_id s)))) by lia.
  eexists; split; [done|]. cbn. split; [lia|]. split.
  - intros x Hx. by rewrite !lookup_insert_ne by lia.
  - apply lookup_insert_eq.
Qed.

Local Arguments published_docker_content_view : simpl never.

(** The promotion tests of the sources pass on every well-formed state. *)
Lemma test_promote_docker_repo_content_view_passes (s : server) :
  wf s -> passes test_promote_docker_repo_content_view s.
Proof.
  intros Hwf. unfold passes, test_promote_docker_repo_content_view.
  pose proof (wf_step s (OpCreate LifecycleEnvironment) Hwf) as Hwf0.
  destruct (published_docker_content_view_runs _ [] Hwf0)
    as (s1 & Hrun & Hnext & Hkeep & Henv).
  cbn in Hrun, Hnext, Hkeep, Henv.
  destruct (promote_new_environment s1 _ (next_id s) _ Henv) as
    (s2 & Hpromote & _ & _ & Henv2 & Hsize).
  { rewrite Hkeep by lia. apply lookup_insert_eq. }
  { apply not_elem_of_singleton. destruct Hwf as [Hlib _]. lia. }
  run_test. rewrite Hrun. cbn. rewrite Hpromote. cbn.
  unfold read_environment. rewrite Henv2. cbn.
  rewrite Hsize, size_singleton. run_test. by eexists _, _.
Qed.

Lemma promote_loop (cvv n : nat) :
  forall (i : nat) (s : server) (fs : list exn) (envs : gset nat),
  environment s !! cvv = Some envs ->
  size envs = i ->
  (forall x, x ∈ envs -> x < next_id s) ->
  exists s1,
    for_each (seq i n) (fun i =>
      lce ← send (create LifecycleEnvironment);
      send (promote cvv lce);;
      envs ← send (read_environment cvv);
      assertEqual (size envs) (i + 1)) (World s fs) =
    (Returned (), World s1 fs).
Proof.
  induction n as [|n IH]; intros i s fs envs Henv Hsize Hbelow.
  - by exists s.
  - cbn [seq for_each]. run_test.
    destruct (promote_new_environment (create LifecycleEnvironment s).2
                cvv (next_id s) envs) as (s2 & Hpromote & Hnext & _ & Henv2 & Hsize2).
    { done. }
    { apply lookup_insert_eq. }
    { intros Hin. apply Hbelow in Hin. lia. }
    cbn in Hpromote. rewrite Hpromote. cbn.
    unfold read_environment. rewrite Henv2. cbn.
    rewrite Hsize2, Hsize. rewrite decide_True by lia. run_test.
    apply (IH (S i) s2 fs (envs ∪ {[next_id s]})); [done|lia|].
    intros x [Hx|Hx%elem_of_singleton]%elem_of_union.
    + apply Hbelow in Hx. rewrite Hnext. cbn. lia.
    + rewrite Hnext. cbn. lia.
Qed.

Lemma test_promote_multiple_docker_repo_content_view_passes (r : nat)
    (s : server) :
  wf s -> passes (test_promote_multiple_docker_repo_content_view r) s.
Proof.
  intros Hwf. unfold passes, test_promote_multiple_docker_repo_content_view.
  destruct (published_docker_content_view_runs s [] Hwf)
    as (s1 & Hrun & Hnext & _ & Henv).
  destruct (promote_loop (next_id s + 3) (r - 1) 1 s1 [] {[library]} Henv)
    as (s2 & Hloop).
  { apply size_singleton. }
  { intros x ->%elem_of_singleton. destruct Hwf as [Hlib _]. lia. }
  unfold mbind at 1. unfold test_bind. rewrite Hrun. cbv beta iota.
  exists (), s2. exact Hloop.
Qed.


(** On the staged product: content view 1 is published as version 3, which
    starts in the Library and is in two environments once promoted to
    lifecycle environment 2. *)
Lemma promote_adds_one_environment_witness :
  exists s1 s2 envs,
    publish 1 staged = (Returned (), s1) /\
    promote_all (next_id staged) [2] s1 = (Returned (), s2) /\
    environment s2 !! next_id staged = Some envs /\
    size envs = 2.
Proof.
  apply (proj2 (proj2 promote_adds_one_environment) staged 1 [2]).
  - reflexivity.
  - apply NoDup_singleton.
  - apply Forall_singleton. split; [reflexivity|]. unfold library. lia.
Defined.

End ProductFacts.

(** ** More on the Environment page object *)

(** A count over a list of calls written out is zero or one. *)
Ltac count_submit :=
  match goal with
  | |- (?n <= 1)%nat =>
      first [ replace n with 0 by reflexivity
            | replace n with 1 by reflexivity ]; lia
  end.

(** One of the alternatives of a disjunction written out. *)
Ltac one_of :=
  first [ reflexivity | by eexists | by split | left; one_of | right; one_of ].

Section PageObjectMore.
Context {W : Type} (browser : call -> W -> outcome value * W).
Import Environment.

(** X1: [delete] makes one call and no other, [delete_entity] with the
    name, the [really] flag, the exact-name locator, the delete locator and
    the dropdown locator: it does not navigate, and it hands over the
    exact-name locator also for a name of more than 30 characters, for
    which [search] takes the filtered-search locator.  It returns [None]
    when the call returns and raises only what the call raises. *)
Theorem delete_uses_exact_locator (name : string) (really : bool) (w : W) :
  calls browser (delete name really) w =
    [DeleteEntity name really (locators "env.env_name") (locators "env.delete")
       (Given (locators "env.dropdown"))] /\
  (30 < len name ->
   search_locator name <> locators "env.env_name") /\
  (forall e, result browser (delete name really) w = Raised e ->
     exists c, (c, Raised e) ∈ trace browser (delete name really) w) /\
  (forall v, result browser (delete name really) w = Returned v -> v = VNone).
Proof.
  unfold calls, trace, result, delete, search_locator. cbn.
  split; [by answer|]. split.
  - intros Hlen%Nat.leb_gt. by rewrite Hlen.
  - split; answer; intros ? [=]; subst; try done. eexists. find_event.
Qed.

(** X2: whenever [create] returns, it returns [None], its first call was
    the click on the new-environment control, its last call the click on
    submit, and submit was clicked exactly once. *)
Theorem create_returns_after_submit (name : string)
    (orgs : option (list string)) (org_select : bool) (w : W) (v : value) :
  result browser (create name orgs org_select) w = Returned v ->
  v = VNone /\
  head (calls browser (create name orgs org_select) w) =
    Some (Click (locators "env.new")) /\
  last (calls browser (create name orgs org_select) w) =
    Some (Click (common_locators "submit")) /\
  occurrences (Click (common_locators "submit"))
    (calls browser (create name orgs org_select) w) = 1.
Proof.
  unfold calls, trace, result, create.
  destruct (truthy_list orgs); cbn.
  all: repeat (first [answer | by_value]).
  all: intros [=]; subst; done.
Qed.

(** X3: whenever [create] raises, no click on submit has returned; the
    exception is one that a call below raised, or it is the
    [AttributeError] of calling [send_keys] on the [None] that
    [find_element] answered. *)
Theorem create_fails_before_submit (name : string)
    (orgs : option (list string)) (org_select : bool) (w : W) (e : exn) :
  result browser (create name orgs org_select) w = Raised e ->
  Forall (fun ev => forall v, ev <> (Click (common_locators "submit"), Returned v))
    (trace browser (create name orgs org_select) w) /\
  ((exists c, (c, Raised e) ∈ trace browser (create name orgs org_select) w) \/
   (e = AttributeError /\
    (FindElement (locators "env.name"), Returned VNone)
      ∈ trace browser (create name orgs org_select) w)).
Proof.
  unfold calls, trace, result, create.
  destruct (truthy_list orgs); cbn.
  all: repeat (first [answer | by_value]).
  all: intros [=]; subst.
  all: split; [repeat (apply Forall_cons_2; [intros; done|]); apply Forall_nil_2|].
  all: first [ left; eexists; find_event; fail | right; split; [done|find_event] ].
Qed.

(** X4: whatever the browser answers, every call of [create] is the click
    on the new-environment control, the wait for or the lookup of the name
    field, the typing of the name, the [configure_entity] call for a
    non-empty [orgs], or the click on submit: [create] never navigates and
    never searches, and it calls [configure_entity] at most once. *)
Theorem create_stays_on_form (name : string) (orgs : option (list string))
    (org_select : bool) (w : W) :
  Forall (fun c =>
            c = Click (locators "env.new") \/
            c = WaitUntilElement (locators "env.name") \/
            c = FindElement (locators "env.name") \/
            (exists e, c = SendKeys e name) \/
            (truthy_list orgs = true /\
             c = ConfigureEntity orgs (FILTER "env_org") (tab_locators "tab_org")
                   Default org_select) \/
            c = Click (common_locators "submit"))
    (calls browser (create name orgs org_select) w) /\
  occurrences (ConfigureEntity orgs (FILTER "env_org") (tab_locators "tab_org")
                 Default org_select)
    (calls browser (create name orgs org_select) w) <= 1.
Proof.
  unfold calls, trace, create.
  destruct (truthy_list orgs) eqn:Horgs; cbn.
  all: repeat (first [answer | by_value]).
  all: split;
    [repeat (apply Forall_cons_2; [one_of|]); apply Forall_nil_2|].
  all: unfold occurrences; cbn; repeat (case_decide; try done); cbn; lia.
Qed.

(** X5: with a non-empty [orgs], nothing below raising and the name field
    found, [create] clicks the new-environment control, waits for the name
    field, types the name into it, calls [configure_entity] once, with
    [orgs], [FILTER['env_org']], the organizations tab and [org_select]
    and without [new_entity_list], and then clicks submit. *)
Theorem create_with_orgs_sequence (name : string) (orgs : option (list string))
    (org_select : bool) (w : W) (field : element) :
  never_raises browser ->
  truthy_list orgs = true ->
  (FindElement (locators "env.name"), Returned (VElem field))
    ∈ trace browser (create name orgs org_select) w ->
  calls browser (create name orgs org_select) w =
    [Click (locators "env.new"); WaitUntilElement (locators "env.name");
     FindElement (locators "env.name"); SendKeys field name;
     ConfigureEntity orgs (FILTER "env_org") (tab_locators "tab_org")
       Default org_select;
     Click (common_locators "submit")] /\
  result browser (create name orgs org_select) w = Returned VNone.
Proof.
  intros Hok Horgs. unfold calls, trace, result, create. rewrite Horgs. cbn.
  answer_ok Hok. answer_ok Hok. by_value.
  { repeat answer_ok Hok. intros Hin. mem Hin; discriminate Hin. }
  answer_ok Hok. by_value.
  { intros Hin. mem Hin; discriminate Hin. }
  repeat answer_ok Hok. intros Hin. mem Hin; try discriminate Hin.
  by injection Hin as ->.
Qed.

(** X6: [update] raises only an exception that one of its calls raised; it
    has no failure of its own, the located element being an element. *)
Theorem update_raises_only_from_below (old_name : string)
    (orgs new_orgs : option (list string)) (new_name : option string)
    (org_select : bool) (w : W) (e : exn) :
  result browser (update old_name orgs new_orgs new_name org_select) w =
    Raised e ->
  exists c,
    (c, Raised e)
      ∈ trace browser (update old_name orgs new_orgs new_name org_select) w.
Proof.
  unfold calls, trace, result. rewrite run_update, run_search.
  destruct (browser GoToEnvironments w) as [[v0|e0] w1]; cbn;
    [|intros [=]; subst; eexists; find_event].
  destruct (browser (SearchEntity old_name (search_locator old_name)) w1)
    as [[[|el]|e2] w2]; cbn; [done| |intros [=]; subst; eexists; find_event].
  answer; [|intros [=]; subst; eexists; find_event].
  answer; [|intros [=]; subst; eexists; find_event].
  destruct (truthy _ && truthy_str new_name); cbn; repeat answer.
  all: intros [=]; subst; eexists; find_event.
Qed.

(** X7: whatever the browser answers, [update] clicks submit at most once
    and never opens the new-environment form, looks a field up or types
    into one; when it returns it returns [None], and it has clicked submit
    once if [search] located the entity and not at all if it did not. *)
Theorem update_submits_at_most_once (old_name : string)
    (orgs new_orgs : option (list string)) (new_name : option string)
    (org_select : bool) (w : W) :
  occurrences (Click (common_locators "submit"))
    (calls browser (update old_name orgs new_orgs new_name org_select) w) <= 1 /\
  Forall (fun c => c <> Click (locators "env.new") /\
                   (forall l, c <> FindElement l) /\
                   (forall el txt, c <> SendKeys el txt))
    (calls browser (update old_name orgs new_orgs new_name org_select) w) /\
  (forall v,
     result browser (update old_name orgs new_orgs new_name org_select) w =
       Returned v ->
     v = VNone /\
     exists found,
       result browser (search old_name) w = Returned found /\
       occurrences (Click (common_locators "submit"))
         (calls browser (update old_name orgs new_orgs new_name org_select) w) =
       (if truthy found then 1 else 0)).
Proof.
  unfold calls, trace, result. rewrite run_update, run_search.
  destruct (browser GoToEnvironments w) as [[v0|e0] w1]; cbn.
  2: { split; [count_submit|]. split; [|done].
       repeat (apply Forall_cons_2; [done|]); apply Forall_nil_2. }
  destruct (browser (SearchEntity old_name (search_locator old_name)) w1)
    as [[[|el]|e2] w2]; cbn.
  1,3: split; [count_submit|]; split;
       [repeat (apply Forall_cons_2; [done|]); apply Forall_nil_2|];
       intros ? [=]; subst; try (split; [done|]; by exists VNone).
  answer; [answer; [destruct (truthy _ && truthy_str new_name); cbn;
                    repeat answer|]|].
  all: split; [count_submit|]; split;
       [repeat (apply Forall_cons_2; [done|]); apply Forall_nil_2|];
       intros ? [=]; subst; try (split; [done|]; by exists (VElem el)).
Qed.

Lemma update_starts_with_search (old_name : string)
    (orgs new_orgs : option (list string)) (new_name : option string)
    (org_select : bool) (w : W) :
  (exists v w1, browser GoToEnvironments w = (Returned v, w1)) ->
  exists rest,
    calls browser (update old_name orgs new_orgs new_name org_select) w =
      GoToEnvironments :: SearchEntity old_name (search_locator old_name)
        :: rest.
Proof.
  intros (v & w1 & Hnav). unfold calls, trace.
  rewrite run_update, run_search, Hnav.
  destruct (browser (SearchEntity old_name (search_locator old_name)) w1)
    as [[[|el]|e2] w2]; [by eexists| |by eexists].
  match goal with
  | |- context [run browser ?p w2] =>
      destruct (run browser p w2) as [[t2 o2] w3]
  end.
  by eexists.
Qed.

(** X8: once the navigation has returned, the first call of [update] is
    that navigation and the second the lookup of [old_name], by exact name
    for at most 30 characters and through the filtered search for more:
    [update] takes over the threshold of [search]. *)
Theorem update_inherits_threshold (old_name : string)
    (orgs new_orgs : option (list string)) (new_name : option string)
    (org_select : bool) (w : W) :
  (exists v w1, browser GoToEnvironments w = (Returned v, w1)) ->
  calls browser (update old_name orgs new_orgs new_name org_select) w !! 0 =
    Some GoToEnvironments /\
  (len old_name <= 30 ->
   calls browser (update old_name orgs new_orgs new_name org_select) w !! 1 =
     Some (SearchEntity old_name (locators "env.env_name"))) /\
  (30 < len old_name ->
   calls browser (update old_name orgs new_orgs new_name org_select) w !! 1 =
     Some (SearchEntity old_name (common_locators "select_filtered_entity"))).
Proof.
  intros Hnav.
  destruct (update_starts_with_search old_name orgs new_orgs new_name
              org_select w Hnav) as [rest ->].
  unfold search_locator. split; [done|split].
  - intros Hlen%Nat.leb_le. by rewrite Hlen.
  - intros Hlen%Nat.leb_gt. by rewrite Hlen.
Qed.

End PageObjectMore.

(** ** The loops and blocks of the UI tests *)

Section TestsMore.
Context {W : Type} (browser : call -> W -> outcome value * W).

Local Arguments helper_calls : simpl never.

Lemma run_subTest (p : prog value) (w : W) :
  run browser (subTest p) w =
  let '(t, o, w1) := run browser p w in (t, Returned VNone, w1).
Proof.
  unfold subTest. rewrite run_handle.
  destruct (run browser p w) as [[t o] w1]. cbn. by rewrite app_nil_r.
Qed.

Lemma helper_calls_app (fn : string) (cs1 cs2 : list call) :
  helper_calls fn (cs1 ++ cs2) = helper_calls fn cs1 ++ helper_calls fn cs2.
Proof. unfold helper_calls. apply omap_app. Qed.

(** A loop of sub-tests never raises, and a helper that every round calls
    exactly once is called once per item, in the order of the items. *)
Lemma for_each_subTest_visits {X} (fn : string) (body : X -> prog value)
    (args : X -> list string) :
  (forall x w, helper_calls fn (calls browser (body x) w) = [args x]) ->
  forall xs w,
    helper_calls fn
      (calls browser (for_each xs (fun x => subTest (body x))) w) =
      args <$> xs /\
    result browser (for_each xs (fun x => subTest (body x))) w =
      Returned VNone.
Proof.
  intros Hbody. induction xs as [|x xs IH]; intros w; [done|].
  unfold calls, trace, result in *. cbn [for_each].
  rewrite run_bind, run_subTest.
  specialize (Hbody x w).
  destruct (run browser (body x) w) as [[t o] w1]. cbn in Hbody.
  specialize (IH w1).
  destruct (run browser (for_each xs (fun x => subTest (body x))) w1)
    as [[t2 o2] w2].
  cbn in *. destruct IH as [IH1 IH2].
  rewrite fmap_app, helper_calls_app, Hbody, IH1. done.
Qed.

(** The helper calls of a scoped block are those of the block, and the
    block's test method raises only what the logout raised, when the block
    itself never raises. *)
Lemma scoped_helper_calls (fn : string) (body : Session.session -> prog value)
    (w : W) (v : value) (w1 : W) :
  browser Login w = (Returned v, w1) ->
  helper_calls fn (calls browser (Session.scoped body) w) =
    helper_calls fn (calls browser (body Session.Self) w1) /\
  (result browser (body Session.Self) w1 = Returned VNone ->
   forall e, result browser (Session.scoped body) w = Raised e ->
     (Logout, Raised e) ∈ trace browser (Session.scoped body) w).
Proof.
  intros Hlogin. unfold calls, trace, result. rewrite run_scoped, Hlogin.
  destruct (run browser (body Session.Self) w1) as [[t o] w2]; cbn.
  destruct (browser Logout w2) as [r w3]; cbn.
  split.
  - unfold helper_calls. cbn. rewrite fmap_app, omap_app. cbn.
    by rewrite app_nil_r.
  - intros -> e. destruct r as [?|e1]; [done|]. intros [= ->].
    apply list_elem_of_further, elem_of_app. right. apply list_elem_of_here.
Qed.

(** X9: once logged in, [test_create_positive] calls
    [make_config_groups] once for each name of the list, in order, whatever
    the earlier rounds did; the test method raises only what the logout
    raised. *)
Theorem test_create_positive_visits_every_name (names : list string) (w : W) :
  (exists v w1, browser Login w = (Returned v, w1)) ->
  helper_calls "make_config_groups"
    (calls browser (test_create_positive names) w) =
    (fun name => [name]) <$> names /\
  (forall e, result browser (test_create_positive names) w = Raised e ->
     (Logout, Raised e) ∈ trace browser (test_create_positive names) w).
Proof.
  intros (v & w1 & Hlogin). unfold test_create_positive.
  match goal with
  | |- context [Session.scoped ?b] =>
      destruct (scoped_helper_calls "make_config_groups" b w v w1 Hlogin)
        as [Hcalls Hraise]
  end.
  rewrite Hcalls. cbv beta in *.
  match goal with
  | |- context [for_each names (fun x => subTest (@?b x))] =>
      destruct (for_each_subTest_visits "make_config_groups" b
                  (fun name => [name])) with (xs := names) (w := w1)
        as [Hvisit Hresult]
  end.
  { intros x w0. unfold calls, trace. cbn.
    repeat (first [answer | by_value]); unfold assertIsNotNone; cbn;
      try by_value; done. }
  split; [exact Hvisit|]. by apply Hraise.
Qed.

(** The rounds of a scoped loop of sub-tests, read off the calls to [fn]. *)
Ltac visit_rounds fn args Hlogin :=
  match goal with
  | |- context [Session.scoped ?b] =>
      let Hcalls := fresh "Hcalls" in
      destruct (scoped_helper_calls fn b _ _ _ Hlogin) as [Hcalls _];
      rewrite Hcalls; cbv beta
  end;
  match goal with
  | |- context [for_each ?xs (fun x => subTest (@?b x))] =>
      apply (for_each_subTest_visits fn b args);
      let x := fresh "x" in
      let w0 := fresh "w" in
      intros x w0; unfold calls, trace, assertIsNotNone, assertIsNone; cbn;
      repeat (first [answer | by_value
                    | match goal with
                      | |- context [match ?v with VNone => _ | VElem _ => _ end] =>
                          is_var v; destruct v; cbn
                      end]);
      done
  end.

(** X10: once logged in, the other loops of [test_config_groups.py] call
    [make_config_groups] once per round, in order, whatever the earlier
    rounds did: with each name in [test_create_negative] and
    [test_delete_positive], with the one generated name in
    [test_update_positive]. *)
Theorem config_groups_loops_visit_every_name (name : string)
    (names : list string) (w : W) :
  (exists v w1, browser Login w = (Returned v, w1)) ->
  helper_calls "make_config_groups"
    (calls browser (ConfigGroups.test_create_negative names) w) =
    (fun name => [name]) <$> names /\
  helper_calls "make_config_groups"
    (calls browser (ConfigGroups.test_update_positive name names) w) =
    (fun _ => [name]) <$> names /\
  helper_calls "make_config_groups"
    (calls browser (ConfigGroups.test_delete_positive names) w) =
    (fun name => [name]) <$> names.
Proof.
  intros (v & w1 & Hlogin). split; [|split].
  - unfold ConfigGroups.test_create_negative.
    visit_rounds "make_config_groups" (fun name : string => [name]) Hlogin.
  - unfold ConfigGroups.test_update_positive.
    visit_rounds "make_config_groups" (fun _ : string => [name]) Hlogin.
  - unfold ConfigGroups.test_delete_positive.
    visit_rounds "make_config_groups" (fun name : string => [name]) Hlogin.
Qed.

(** X11: once logged in, [test_remove_medium] calls the delete of the
    medium exactly when [make_media] has returned. *)
Theorem test_remove_medium_deletes_after_create (name path : string) (w : W) :
  (exists v w1, browser Login w = (Returned v, w1)) ->
  Helper "medium.delete" [name]
    ∈ calls browser (test_remove_medium name path) w <->
  exists v, (Helper "make_media" [name; path; "Red Hat"], Returned v)
              ∈ trace browser (test_remove_medium name path) w.
Proof.
  intros (v & w1 & Hlogin). unfold calls, trace, test_remove_medium.
  rewrite run_scoped, Hlogin. cbn.
  repeat answer.
  all: split; [intros Hin; mem Hin; try discriminate Hin; eexists; find_event
              |intros [? Hin]; mem Hin; try discriminate Hin; find_event].
Qed.

(** A call that raised on a browser that never raises. *)
Ltac never_raised Hok :=
  match goal with
  | H : ?b ?c ?w = (Raised _, _) |- _ =>
      let Hr := fresh "Hr" in
      destruct (Hok c w) as (? & ? & Hr); rewrite Hr in H; discriminate H
  end.

(** X12: once logged in, [test_update_medium] calls the update of the
    medium exactly when its first search has found the medium; a first
    search that answers [None] ends the test with the [AssertionError] of
    [assertIsNotNone], after a logout that returns.  The last statement
    asserts nothing about the renamed medium: with nothing below raising
    and the medium found at first, the search for the new name is made and
    the test returns whatever that search answers. *)
Theorem test_update_medium_guard (name newname path newpath : string) (w : W) :
  (exists v w1, browser Login w = (Returned v, w1)) ->
  (Helper "medium.update" [name; newname; newpath; "Debian"]
     ∈ calls browser (Medium.test_update_medium name newname path newpath) w <->
   exists el,
     trace browser (Medium.test_update_medium name newname path newpath) w
       !! 2 = Some (Helper "medium.search" [name], Returned (VElem el))) /\
  (trace browser (Medium.test_update_medium name newname path newpath) w
     !! 2 = Some (Helper "medium.search" [name], Returned VNone) ->
   (exists v, (Logout, Returned v)
                ∈ trace browser
                    (Medium.test_update_medium name newname path newpath) w) ->
   result browser (Medium.test_update_medium name newname path newpath) w =
     Raised AssertionError) /\
  (never_raises browser ->
   forall el,
     trace browser (Medium.test_update_medium name newname path newpath) w
       !! 2 = Some (Helper "medium.search" [name], Returned (VElem el)) ->
     result browser (Medium.test_update_medium name newname path newpath) w =
       Returned VNone /\
     exists renamed,
       trace browser (Medium.test_update_medium name newname path newpath) w
         !! 4 = Some (Helper "medium.search" [newname], Returned renamed)).
Proof.
  intros (v & w1 & Hlogin).
  unfold calls, trace, result, Medium.test_update_medium.
  rewrite run_scoped, Hlogin. unfold assertIsNotNone, Medium.assertTrue. cbn.
  repeat (first [answer | by_value]).
  all: split; [|split].
  all: try (split;
            [intros Hin; mem Hin; try discriminate Hin; by eexists
            |intros [? Heq]; cbn in Heq; try discriminate Heq; find_event]).
  all: try (intros Heq [? Hout]; cbn in Heq; mem Hout;
            try discriminate Heq; try discriminate Hout; done).
  all: intros Hok el Heq; try never_raised Hok.
  all: cbn in Heq; try discriminate Heq; try (split; [done|by eexists]).
Qed.

(** X13: with nothing below raising,
    [test_negative_create_medium_with_same_path] returns exactly when the
    first medium was found on the listing, the error element showed after
    the second [make_media], and the search for the second medium answered
    [None]. *)
Theorem test_same_path_accepts (name new_name path : string) (w : W) :
  never_raises browser ->
  result browser
    (Medium.test_negative_create_medium_with_same_path name new_name path) w =
    Returned VNone <->
  exists listed error,
    (Helper "medium.search" [name], Returned (VElem listed))
      ∈ trace browser
          (Medium.test_negative_create_medium_with_same_path
             name new_name path) w /\
    (WaitUntilElement (common_locators "haserror"), Returned (VElem error))
      ∈ trace browser
          (Medium.test_negative_create_medium_with_same_path
             name new_name path) w /\
    (Helper "medium.search" [new_name], Returned VNone)
      ∈ trace browser
          (Medium.test_negative_create_medium_with_same_path
             name new_name path) w.
Proof.
  intros Hok.
  unfold trace, result, Medium.test_negative_create_medium_with_same_path.
  rewrite run_scoped. unfold assertIsNotNone, assertIsNone.
  answer_ok Hok.
  repeat (first [answer_ok Hok | by_value
                | match goal with
                  | |- context [match ?v with VNone => _ | VElem _ => _ end] =>
                      is_var v; destruct v; cbn
                  end]).
  all: split;
    [first [ by intros [=]
           | intros _; eexists _, _; repeat split; find_event ]
    |intros (listed & error & H1 & H2 & H3); mem H1; mem H2; mem H3;
     try discriminate H1; try discriminate H2; try discriminate H3; done].
Qed.

End TestsMore.

Section SmartProxyFacts.
Context {W : Type} (browser : call -> W -> outcome value * W).
Import SmartProxy.

(** X14: [test_location] and [test_organization] make no call and return
    exactly when at least two of the candidate names are among the
    attributes: a response that carries exactly one of them fails the
    assertion. *)
Theorem smart_proxy_tests_need_two_names (names attrs : gset string) (w : W) :
  (result browser (test_location names attrs) w = Returned VNone <->
   2 <= size (names ∩ attrs)) /\
  (result browser (test_organization names attrs) w = Returned VNone <->
   2 <= size (names ∩ attrs)) /\
  (forall x, names ∩ attrs = {[x]} ->
     result browser (test_location names attrs) w = Raised AssertionError /\
     result browser (test_organization names attrs) w = Raised AssertionError) /\
  calls browser (test_location names attrs) w = [] /\
  calls browser (test_organization names attrs) w = [].
Proof.
  unfold result, calls, trace, test_location, test_organization, assertGreater.
  split; [|split; [|split]].
  1,2: destruct (Nat.ltb_spec 1 (size (names ∩ attrs))) as [H|H]; cbn;
       (split; [intros; try done; lia|intros; try done; lia]).
  - intros x ->. rewrite size_singleton. done.
  - by destruct (1 <? size (names ∩ attrs))%nat.
Qed.

End SmartProxyFacts.

(** ** What the tests of [test_medium.py] accept *)

(** Every answer of a scoped test body on a browser that never raises, by
    cases, and the events each side of the equivalence names. *)
Ltac accepts Hok :=
  unfold trace, result; rewrite run_scoped;
  unfold assertIsNotNone, assertIsNone;
  answer_ok Hok;
  repeat (first [answer_ok Hok | by_value
                | match goal with
                  | |- context [match ?v with VNone => _ | VElem _ => _ end] =>
                      is_var v; destruct v; cbn
                  end]);
  (split;
   [first [ by intros [=]
          | intros _; repeat eexists; find_event ]
   |let H := fresh "H" in
    intros H; decompose [ex and] H; clear H;
    repeat match goal with
           | H1 : _ ∈ _ |- _ => mem H1; try discriminate H1; revert H1
           end; done]).

Section MediumAccepts.
Context {W : Type} (browser : call -> W -> outcome value * W).
Import Medium.

(** X15: with nothing below raising, [test_positive_create_medium] returns
    exactly when the search finds the medium;
    [test_negative_create_medium_with_long_names] exactly when the name
    error shows and the search answers [None]; and
    [test_negative_create_medium_with_empty_strings] exactly when the name
    error shows. *)
Theorem medium_create_tests_accept (name path : string) (w : W) :
  never_raises browser ->
  (result browser (test_positive_create_medium name path) w = Returned VNone <->
   exists listed,
     (Helper "medium.search" [name], Returned (VElem listed))
       ∈ trace browser (test_positive_create_medium name path) w) /\
  (result browser (test_negative_create_medium_with_long_names name path) w =
     Returned VNone <->
   exists error,
     (WaitUntilElement (common_locators "name_haserror"), Returned (VElem error))
       ∈ trace browser (test_negative_create_medium_with_long_names name path) w /\
     (Helper "medium.search" [name], Returned VNone)
       ∈ trace browser (test_negative_create_medium_with_long_names name path) w) /\
  (result browser (test_negative_create_medium_with_empty_strings name path) w =
     Returned VNone <->
   exists error,
     (WaitUntilElement (common_locators "name_haserror"), Returned (VElem error))
       ∈ trace browser
           (test_negative_create_medium_with_empty_strings name path) w).
Proof.
  intros Hok. split; [|split].
  - unfold test_positive_create_medium. accepts Hok.
  - unfold test_negative_create_medium_with_long_names. accepts Hok.
  - unfold test_negative_create_medium_with_empty_strings. accepts Hok.
Qed.

(** X16: with nothing below raising,
    [test_negative_create_medium_with_same_name] returns exactly when the
    first medium is found and the name error shows after the second
    [make_media]; [test_negative_create_medium_without_path] exactly when
    the error element shows and the search answers [None]. *)
Theorem medium_rejection_tests_accept (name path : string) (w : W) :
  never_raises browser ->
  (result browser (test_negative_create_medium_with_same_name name path) w =
     Returned VNone <->
   exists listed error,
     (Helper "medium.search" [name], Returned (VElem listed))
       ∈ trace browser (test_negative_create_medium_with_same_name name path) w /\
     (WaitUntilElement (common_locators "name_haserror"), Returned (VElem error))
       ∈ trace browser (test_negative_create_medium_with_same_name name path) w) /\
  (result browser (test_negative_create_medium_without_path name) w =
     Returned VNone <->
   exists error,
     (WaitUntilElement (common_locators "haserror"), Returned (VElem error))
       ∈ trace browser (test_negative_create_medium_without_path name) w /\
     (Helper "medium.search" [name], Returned VNone)
       ∈ trace browser (test_negative_create_medium_without_path name) w).
Proof.
  intros Hok. split.
  - unfold test_negative_create_medium_with_same_name. accepts Hok.
  - unfold test_negative_create_medium_without_path. accepts Hok.
Qed.

End MediumAccepts.

(** ** The page object and the tests on concrete browsers *)

Lemma same_path_rejected_never_raises : never_raises same_path_rejected.
Proof.
  intros c n. unfold same_path_rejected. repeat case_match; by eexists _, _.
Qed.

(** Creating "qa" for one organization, the form being up. *)
Lemma create_returns_after_submit_witness :
  last (calls (page form_up only_dev)
          (Environment.create "qa" (Some ["org1"]) true) 0) =
    Some (Click (common_locators "submit")).
Proof.
  apply (create_returns_after_submit (page form_up only_dev) "qa"
           (Some ["org1"]) true 0 VNone).
  reflexivity.
Defined.

(** The click on submit raises: [create] raises what it raised. *)
Lemma create_fails_before_submit_witness :
  result (failing is_submit form_up only_dev)
    (Environment.create "qa" None true) 0 = Raised UINoSuchElementError /\
  Forall (fun ev =>
            forall v, ev <> (Click (common_locators "submit"), Returned v))
    (trace (failing is_submit form_up only_dev)
       (Environment.create "qa" None true) 0).
Proof.
  split; [reflexivity|].
  apply (create_fails_before_submit (failing is_submit form_up only_dev) "qa"
           None true 0 UINoSuchElementError).
  reflexivity.
Defined.

Lemma create_with_orgs_sequence_witness :
  calls (page form_up only_dev)
    (Environment.create "qa" (Some ["org1"]) false) 0 =
  [Click (locators "env.new"); WaitUntilElement (locators "env.name");
   FindElement (locators "env.name"); SendKeys 5 "qa";
   ConfigureEntity (Some ["org1"]) (FILTER "env_org") (tab_locators "tab_org")
     Default false;
   Click (common_locators "submit")] /\
  result (page form_up only_dev)
    (Environment.create "qa" (Some ["org1"]) false) 0 = Returned VNone.
Proof.
  apply (create_with_orgs_sequence (page form_up only_dev) "qa"
           (Some ["org1"]) false 0 5).
  - apply page_never_raises.
  - reflexivity.
  - cbn. find_event.
Defined.

(** The click on submit raises at the end of an update of "dev". *)
Lemma update_raises_only_from_below_witness :
  exists c,
    (c, Raised UINoSuchElementError)
      ∈ trace (failing is_submit form_up only_dev)
          (Environment.update "dev" None None (Some "prod") false) 0.
Proof.
  apply (update_raises_only_from_below (failing is_submit form_up only_dev)
           "dev" None None (Some "prod") false 0 UINoSuchElementError).
  reflexivity.
Defined.

(** An old name of 31 characters is looked up through the filtered search,
    one of 16 accented characters, 32 bytes long, by exact name. *)
Lemma update_inherits_threshold_witness :
  calls (page form_up only_dev)
    (Environment.update "abcdefghijklmnopqrstuvwxyz01234" None None None false)
    0 !! 1 =
  Some (SearchEntity "abcdefghijklmnopqrstuvwxyz01234"
          (common_locators "select_filtered_entity")) /\
  calls (page form_up only_dev)
    (Environment.update "éééééééééééééééé" None None None false) 0 !! 1 =
  Some (SearchEntity "éééééééééééééééé" (locators "env.env_name")).
Proof.
  split.
  - apply (proj2 (proj2 (update_inherits_threshold (page form_up only_dev)
                           "abcdefghijklmnopqrstuvwxyz01234" None None None
                           false 0 (ex_intro _ VNone (ex_intro _ 1 eq_refl))))).
    vm_compute. lia.
  - apply (proj1 (proj2 (update_inherits_threshold (page form_up only_dev)
                           "éééééééééééééééé" None None None false 0
                           (ex_intro _ VNone (ex_intro _ 1 eq_refl))))).
    vm_compute. lia.
Defined.

(** Both sub-tests fail their assertion on the blank browser, and both
    names are tried. *)
Lemma test_create_positive_visits_every_name_witness :
  helper_calls "make_config_groups"
    (calls blank (test_create_positive ["a"; "b"]) 0) = [["a"]; ["b"]].
Proof.
  apply (test_create_positive_visits_every_name blank ["a"; "b"] 0).
  exists VNone, 1. reflexivity.
Defined.

Lemma config_groups_loops_visit_every_name_witness :
  helper_calls "make_config_groups"
    (calls blank (ConfigGroups.test_update_positive "group" ["a"; "b"]) 0) =
  [["group"]; ["group"]].
Proof.
  apply (config_groups_loops_visit_every_name blank "group" ["a"; "b"] 0).
  exists VNone, 1. reflexivity.
Defined.

Lemma test_remove_medium_deletes_after_create_witness :
  Helper "medium.delete" ["abcdef"]
    ∈ calls blank (test_remove_medium "abcdef" "http://mirror/abcdef") 0.
Proof.
  apply (test_remove_medium_deletes_after_create blank "abcdef"
           "http://mirror/abcdef" 0).
  - exists VNone, 1. reflexivity.
  - exists VNone. cbn. find_event.
Defined.

Lemma rename_lost_never_raises : never_raises rename_lost.
Proof.
  intros c n. unfold rename_lost. repeat case_match; by eexists _, _.
Qed.

(** The listing still shows the old name only: the update is made, the
    search for the new name answers [None], and the test returns. *)
Lemma test_update_medium_guard_witness :
  Helper "medium.update" ["abcdef"; "wxyz"; "http://mirror/wxyz"; "Debian"]
    ∈ calls rename_lost
        (Medium.test_update_medium "abcdef" "wxyz" "http://mirror/abcdef"
           "http://mirror/wxyz") 0 /\
  trace rename_lost
    (Medium.test_update_medium "abcdef" "wxyz" "http://mirror/abcdef"
       "http://mirror/wxyz") 0 !! 4 =
    Some (Helper "medium.search" ["wxyz"], Returned VNone) /\
  result rename_lost
    (Medium.test_update_medium "abcdef" "wxyz" "http://mirror/abcdef"
       "http://mirror/wxyz") 0 = Returned VNone.
Proof.
  destruct (test_update_medium_guard rename_lost "abcdef" "wxyz"
              "http://mirror/abcdef" "http://mirror/wxyz" 0
              (ex_intro _ VNone (ex_intro _ 1 eq_refl)))
    as (Hupdate & _ & Hreturns).
  split; [apply Hupdate; by exists 9|].
  split; [reflexivity|].
  by apply (Hreturns rename_lost_never_raises 9).
Defined.

Lemma test_same_path_accepts_witness :
  result same_path_rejected
    (Medium.test_negative_create_medium_with_same_path "first" "second"
       "http://mirror/first") 0 = Returned VNone.
Proof.
  apply (test_same_path_accepts same_path_rejected "first" "second"
           "http://mirror/first" 0 same_path_rejected_never_raises).
  exists 9, 4. cbn. repeat split; find_event.
Defined.

(** The server names the field "location" only: one candidate name is
    among the attributes, and the test fails. *)
Lemma smart_proxy_tests_need_two_names_witness :
  result blank
    (SmartProxy.test_location {["location"; "locations"; "location_ids"]}
       {["name"; "location"; "url"]}) 0 = Raised AssertionError.
Proof.
  apply (smart_proxy_tests_need_two_names blank
           {["location"; "locations"; "location_ids"]}
           {["name"; "location"; "url"]} 0) with (x := "location").
  apply set_eq. intros x. set_solver.
Defined.

Lemma media_found_never_raises : never_raises media_found.
Proof. intros c n. unfold media_found. case_match; by eexists _, _. Qed.

Lemma medium_create_tests_accept_witness :
  result media_found
    (Medium.test_positive_create_medium "abcdef" "http://mirror/abcdef") 0 =
    Returned VNone.
Proof.
  apply (medium_create_tests_accept media_found "abcdef"
           "http://mirror/abcdef" 0 media_found_never_raises).
  exists 9. cbn. find_event.
Defined.

Lemma medium_rejection_tests_accept_witness :
  result same_path_rejected
    (Medium.test_negative_create_medium_with_same_name "first"
       "http://mirror/first") 0 = Returned VNone.
Proof.
  apply (medium_rejection_tests_accept same_path_rejected "first"
           "http://mirror/first" 0 same_path_rejected_never_raises).
  exists 9, 4. cbn. split; find_event.
Defined.
